(** * api_clients: image queries against two vision-language providers

    A shallow embedding of [src/api_clients.py]: the helper [pil2base64]
    and the two query functions [get_openai_output] and [get_gemini_output].

    The module talks to three external libraries (PIL, the OpenAI client
    and google.generativeai).  Their calls are oracles collected in the
    record [Vendor]; every oracle may answer with a value or with an
    exception, and its answer may depend on the calls issued so far, so
    that a provider can change its catalog between two invocations.
    The Python process state the functions can touch is the record
    [State]: the environment, the module-level configuration of
    google.generativeai and the log of outbound calls. *)

From Stdlib Require Import List String Ascii NArith ZArith Bool Lia.
From Stdlib.Strings Require Import Byte.
Import ListNotations.
Local Open Scope string_scope.

(** ** Python values used by the module *)

(** A Python [str] is modelled as a [string] whose characters are the
    code points below 256. *)

Module Py.

(** An exception instance: the names of the classes on the method
    resolution order of its type (most specific first) and [str(e)]. *)
Record exn : Type := mk_exn { exc_mro : list string; exc_str : string }.

Definition isinstance (e : exn) (cls : string) : bool :=
  existsb (String.eqb cls) (exc_mro e).

Definition base_mro : list string := ["Exception"; "BaseException"; "object"].

(** [EnvironmentError] is an alias of [OSError] in Python 3. *)
Definition EnvironmentError (msg : string) : exn :=
  mk_exn ("OSError" :: base_mro) msg.
Definition LookupError (msg : string) : exn :=
  mk_exn ("LookupError" :: base_mro) msg.
Definition IndexError (msg : string) : exn :=
  mk_exn ("IndexError" :: "LookupError" :: base_mro) msg.
Definition KeyError (msg : string) : exn :=
  mk_exn ("KeyError" :: "LookupError" :: base_mro) msg.
Definition RuntimeError (msg : string) : exn :=
  mk_exn ("RuntimeError" :: base_mro) msg.
Definition ValueError (msg : string) : exn :=
  mk_exn ("ValueError" :: base_mro) msg.

(** [x in xs] for a list of strings. *)
Definition contains (x : string) (xs : list string) : bool :=
  existsb (String.eqb x) xs.

(** Truth value of [os.environ.get(...)]: [None] and the empty string
    are false. *)
Definition truthy (v : option string) : bool :=
  match v with
  | None => false
  | Some s => negb (String.eqb s EmptyString)
  end.

(** [d.get(key)] on a mapping held as a list of items. *)
Fixpoint get (d : list (string * string)) (key : string) : option string :=
  match d with
  | [] => None
  | (k, v) :: rest => if String.eqb k key then Some v else get rest key
  end.

(** *** [repr] of a string and of a list of strings *)

Definition hex_digit (n : N) : ascii :=
  match String.get (N.to_nat n) "0123456789abcdef" with
  | Some c => c
  | None => "0"%char
  end.

Definition occurs (c : ascii) (s : string) : bool :=
  existsb (Ascii.eqb c) (list_ascii_of_string s).

(** The quote [repr] chooses: a double quote only when the string holds
    a single quote and no double quote. *)
Definition dquote : ascii := ascii_of_N 34.

Definition repr_quote (s : string) : ascii :=
  if occurs "'"%char s && negb (occurs dquote s)
  then dquote else "'"%char.

(** Code points below 256 that [str.isprintable] rejects. *)
Definition unprintable (n : N) : bool :=
  ((n <? 32) || (n =? 127) || ((128 <=? n) && (n <=? 160)) || (n =? 173))%N.

Definition repr_char (q c : ascii) : string :=
  let n := N_of_ascii c in
  if Ascii.eqb c q || Ascii.eqb c "\"%char then String "\"%char (String c EmptyString)
  else if (n =? 9)%N then "\t"
  else if (n =? 10)%N then "\n"
  else if (n =? 13)%N then "\r"
  else if unprintable n
       then String "\"%char (String "x"%char
              (String (hex_digit (n / 16)) (String (hex_digit (n mod 16)) EmptyString)))
  else String c EmptyString.

Fixpoint repr_body (q : ascii) (s : string) : string :=
  match s with
  | EmptyString => EmptyString
  | String c rest => repr_char q c ++ repr_body q rest
  end.

Definition repr_str (s : string) : string :=
  let q := repr_quote s in
  String q (repr_body q s ++ String q EmptyString).

Fixpoint join (sep : string) (xs : list string) : string :=
  match xs with
  | [] => EmptyString
  | [x] => x
  | x :: rest => x ++ sep ++ join sep rest
  end.

(** [repr] of a list of strings, which is what an f-string field
    [{supported_models}] expands to. *)
Definition repr_list (xs : list string) : string :=
  "[" ++ join ", " (map repr_str xs) ++ "]".

(** The items of a list [repr] after the opening bracket. *)
Definition items (xs : list string) : string := join ", " (map repr_str xs) ++ "]".

(** Reading the body of a [repr] back: the characters up to the closing
    quote [q], with the escapes undone, and what follows that quote. *)
Definition hex_value (c : ascii) : N :=
  let n := N_of_ascii c in
  if (n <? 58)%N then (n - 48)%N else (n - 87)%N.

Definition push (c : ascii) (r : option (string * string)) : option (string * string) :=
  match r with
  | Some (s, rest) => Some (String c s, rest)
  | None => None
  end.

Fixpoint unrepr_body (q : ascii) (s : string) : option (string * string) :=
  match s with
  | EmptyString => None
  | String c rest =>
      if Ascii.eqb c q then Some (EmptyString, rest)
      else if Ascii.eqb c "\"%char then
        match rest with
        | EmptyString => None
        | String d rest' =>
            if Ascii.eqb d "t"%char then push (ascii_of_N 9) (unrepr_body q rest')
            else if Ascii.eqb d "n"%char then push (ascii_of_N 10) (unrepr_body q rest')
            else if Ascii.eqb d "r"%char then push (ascii_of_N 13) (unrepr_body q rest')
            else if Ascii.eqb d "x"%char then
              match rest' with
              | String h (String l rest'') =>
                  push (ascii_of_N (hex_value h * 16 + hex_value l))
                       (unrepr_body q rest'')
              | _ => None
              end
            else push d (unrepr_body q rest')
        end
      else push c (unrepr_body q rest)
  end.

(** [xs[i]] on a list: an [IndexError] out of range. *)
Definition index {A : Type} (xs : list A) (i : nat) : exn + A :=
  match nth_error xs i with
  | Some x => inr x
  | None => inl (IndexError "list index out of range")
  end.

End Py.

(** ** Base64 (RFC 4648, standard alphabet, with padding)

    [base64.b64encode] maps [bytes] to [bytes]; [decode] is the inverse
    used to state the round trip of the image encoder. *)

Module Base64.

Local Open Scope N_scope.

Definition alphabet : string :=
  "ABCDEFGHIJKLMNOPQRSTUVWXYZabcdefghijklmnopqrstuvwxyz0123456789+/".

Definition pad : byte := byte_of_ascii "="%char.

(** The character of a 6-bit value. *)
Definition char_of_sextet (n : N) : byte :=
  match String.get (N.to_nat n) alphabet with
  | Some c => byte_of_ascii c
  | None => pad
  end.

(** The 6-bit value of a character of the alphabet. *)
Definition sextet_of_char (b : byte) : option N :=
  let n := Byte.to_N b in
  if (65 <=? n) && (n <=? 90) then Some (n - 65)
  else if (97 <=? n) && (n <=? 122) then Some (n - 71)
  else if (48 <=? n) && (n <=? 57) then Some (n + 4)
  else if n =? 43 then Some 62
  else if n =? 47 then Some 63
  else None.

(** Three input bytes are one 24-bit group, cut into four 6-bit values;
    a last group of one or two bytes is zero-extended and padded. *)
Fixpoint b64encode (bs : list byte) : list byte :=
  match bs with
  | [] => []
  | [a] =>
      let n := Byte.to_N a * 65536 in
      [char_of_sextet (n / 262144); char_of_sextet (n / 4096 mod 64); pad; pad]
  | [a; b] =>
      let n := Byte.to_N a * 65536 + Byte.to_N b * 256 in
      [char_of_sextet (n / 262144); char_of_sextet (n / 4096 mod 64);
       char_of_sextet (n / 64 mod 64); pad]
  | a :: b :: c :: rest =>
      let n := Byte.to_N a * 65536 + Byte.to_N b * 256 + Byte.to_N c in
      char_of_sextet (n / 262144) :: char_of_sextet (n / 4096 mod 64)
        :: char_of_sextet (n / 64 mod 64) :: char_of_sextet (n mod 64)
        :: b64encode rest
  end.

Definition is_pad (b : byte) : bool := Byte.eqb b pad.

Definition bytes_of_group (n : N) (count : nat) : option (list byte) :=
  match Byte.of_N (n / 65536), Byte.of_N (n / 256 mod 256), Byte.of_N (n mod 256) with
  | Some a, Some b, Some c => Some (firstn count [a; b; c])
  | _, _, _ => None
  end.

(** Decoding of padded text: groups of four characters, padding only in
    the last group. *)
Fixpoint decode (s : list byte) : option (list byte) :=
  match s with
  | [] => Some []
  | c1 :: c2 :: c3 :: c4 :: rest =>
      match sextet_of_char c1, sextet_of_char c2 with
      | Some s1, Some s2 =>
          if is_pad c3 && is_pad c4 then
            match rest with
            | [] => bytes_of_group (s1 * 262144 + s2 * 4096) 1
            | _ => None
            end
          else if is_pad c4 then
            match sextet_of_char c3, rest with
            | Some s3, [] => bytes_of_group (s1 * 262144 + s2 * 4096 + s3 * 64) 2
            | _, _ => None
            end
          else
            match sextet_of_char c3, sextet_of_char c4, decode rest with
            | Some s3, Some s4, Some tl =>
                match bytes_of_group (s1 * 262144 + s2 * 4096 + s3 * 64 + s4) 3 with
                | Some hd => Some (hd ++ tl)%list
                | None => None
                end
            | _, _, _ => None
            end
      | _, _ => None
      end
  | _ => None
  end.

End Base64.

(** [bytes.decode('utf-8')] on ASCII bytes: each byte is the code point
    of one character.  [Base64.b64encode] emits ASCII only (lemma
    [b64encode_ascii] below), where UTF-8 decoding cannot fail. *)
Definition decode_utf8 (bs : list byte) : string := string_of_list_byte bs.

(** [str.encode] of ASCII text, the inverse of [decode_utf8]. *)
Definition encode_utf8 (s : string) : list byte := list_byte_of_string s.

(** ** Data exchanged with the vendor libraries *)

Module openai.

(** [OpenAI(api_key=...)]: the client object of one invocation. *)
Record OpenAI : Type := Build_OpenAI { api_key : string }.

(** An entry of [client.models.list().data]. *)
Record Model : Type := Build_Model { id : string }.
Record SyncPage : Type := Build_SyncPage { data : list Model }.

(** A part of the [content] list of a chat message:
    [{"type": "text", "text": t}] or
    [{"type": "image_url", "image_url": {"url": u}}]. *)
Inductive ContentPart : Type :=
| text_part (text : string)
| image_url_part (url : string).

Record Message : Type := Build_Message { role : string; content : list ContentPart }.

(** The keyword arguments of [client.chat.completions.create]. *)
Record Request : Type := Build_Request {
  model : string;
  messages : list Message;
  max_tokens : Z
}.

(** The reply: [response.choices[i].message.content], which may be [None]. *)
Record ChatCompletionMessage : Type := Build_ChatCompletionMessage {
  message_content : option string
}.
Record Choice : Type := Build_Choice { message : ChatCompletionMessage }.
Record ChatCompletion : Type := Build_ChatCompletion { choices : list Choice }.

End openai.

Module genai.

(** What [genai.configure] stores at module level; [list_models] and
    [GenerativeModel] take no credential and work from this. *)
Record Config : Type := Build_Config { api_key : string; transport : string }.

(** An entry of [genai.list_models()]. *)
Record Model : Type := Build_Model { name : string }.

(** [genai.GenerativeModel(model_name=...)]. *)
Record GenerativeModel : Type := Build_GenerativeModel { model_name : string }.

(** The reply of [generate_content]; its [text] accessor is a property
    that can raise. *)
Record GenerateContentResponse : Type := Build_GenerateContentResponse {
  text : Py.exn + string
}.

End genai.

Section ApiClients.

(** [PIL.Image.Image]. *)
Variable Image : Type.

(** *** Outbound calls and the vendor oracles *)

Inductive Call : Type :=
| models_list (client : openai.OpenAI)
| chat_completions_create (client : openai.OpenAI) (request : openai.Request)
| list_models (config : option genai.Config)
| generate_content (config : option genai.Config)
    (generative_model : genai.GenerativeModel) (prompt : string) (image : Image).

(** The answers of the outside world.  Each network oracle sees the calls
    issued before it.  The constructors [OpenAI(...)] and
    [GenerativeModel(...)] and [genai.configure] work locally and are
    taken not to fail. *)
Record Vendor : Type := Build_Vendor {
  openai_models_list : list Call -> openai.OpenAI -> Py.exn + openai.SyncPage;
  openai_chat_completions_create :
    list Call -> openai.OpenAI -> openai.Request -> Py.exn + openai.ChatCompletion;
  genai_list_models : list Call -> option genai.Config -> Py.exn + list genai.Model;
  genai_generate_content :
    list Call -> option genai.Config -> genai.GenerativeModel -> string -> Image ->
    Py.exn + genai.GenerateContentResponse;
  (** [pil_image.save(stream, format=...)] followed by [stream.getvalue()] *)
  Image_save : Image -> string -> Py.exn + list byte
}.

Variable vendor : Vendor.

(** *** Process state *)

Record State : Type := Build_State {
  environ : list (string * string);        (* os.environ *)
  genai_config : option genai.Config;      (* module state of google.generativeai *)
  calls : list Call                        (* outbound calls so far, oldest first *)
}.

(** *** A state and exception monad *)

Inductive result (A : Type) : Type :=
| Return (a : A)
| Raise (e : Py.exn).
Arguments Return {A} a.
Arguments Raise {A} e.

Definition M (A : Type) : Type := State -> result A * State.

Definition ret {A : Type} (a : A) : M A := fun st => (Return a, st).

Definition raise {A : Type} (e : Py.exn) : M A := fun st => (Raise e, st).

Definition bind {A B : Type} (m : M A) (k : A -> M B) : M B :=
  fun st =>
    match m st with
    | (Return a, st') => k a st'
    | (Raise e, st') => (Raise e, st')
    end.

Notation "x <- m ;; k" := (bind m (fun x => k))
  (at level 61, m at next level, right associativity).
Notation "m ;;; k" := (bind m (fun _ => k))
  (at level 61, right associativity).

Definition lift {A : Type} (r : Py.exn + A) : M A :=
  match r with
  | inr a => ret a
  | inl e => raise e
  end.

(** The [except C as e: handler] clauses of a [try]; the first clause
    whose class the exception is an instance of handles it, and an
    exception no clause matches propagates.  State changes made by the
    body stay. *)
Definition clause (A : Type) : Type := (string * (Py.exn -> M A))%type.

Fixpoint handle {A : Type} (clauses : list (clause A)) (e : Py.exn) : M A :=
  match clauses with
  | [] => raise e
  | (cls, handler) :: rest =>
      if Py.isinstance e cls then handler e else handle rest e
  end.

Definition try_except {A : Type} (body : M A) (clauses : list (clause A)) : M A :=
  fun st =>
    match body st with
    | (Return a, st') => (Return a, st')
    | (Raise e, st') => handle clauses e st'
    end.

(** [if not v: a else: b], with the non-empty value passed on. *)
Definition if_not {A : Type} (v : option string) (a : M A) (b : string -> M A) : M A :=
  match v with
  | Some s => if Py.truthy v then b s else a
  | None => a
  end.

(** *** Primitive operations *)

Definition os_environ_get (key : string) : M (option string) :=
  fun st => (Return (Py.get (environ st) key), st).

Definition record (c : Call) (st : State) : State :=
  Build_State (environ st) (genai_config st) (calls st ++ [c]).

Definition client_models_list (client : openai.OpenAI) : M openai.SyncPage :=
  fun st =>
    lift (openai_models_list vendor (calls st) client) (record (models_list client) st).

Definition client_chat_completions_create (client : openai.OpenAI)
    (request : openai.Request) : M openai.ChatCompletion :=
  fun st =>
    lift (openai_chat_completions_create vendor (calls st) client request)
         (record (chat_completions_create client request) st).

(** [genai.configure(api_key=..., transport=...)] overwrites the module
    configuration. *)
Definition genai_configure (api_key transport : string) : M unit :=
  fun st =>
    (Return tt,
     Build_State (environ st) (Some (genai.Build_Config api_key transport)) (calls st)).

Definition genai_list_models_ : M (list genai.Model) :=
  fun st =>
    lift (genai_list_models vendor (calls st) (genai_config st))
         (record (list_models (genai_config st)) st).

Definition generative_model_generate_content (generative_model : genai.GenerativeModel)
    (prompt : string) (image : Image) : M genai.GenerateContentResponse :=
  fun st =>
    lift (genai_generate_content vendor (calls st) (genai_config st)
            generative_model prompt image)
         (record (generate_content (genai_config st) generative_model prompt image) st).

(** ** The module *)

(** [pil2base64], lines 10-26. *)
Definition pil2base64 (pil_image : Image) : M string :=
  try_except
    (binary_data <- lift (Image_save vendor pil_image "PNG") ;;
     ret (decode_utf8 (Base64.b64encode binary_data)))
    [("Exception",
      fun e => raise (Py.RuntimeError
                 ("Failed to convert image to base64: " ++ Py.exc_str e)))].

(** The error of line 61 and line 131. *)
Definition not_supported (model : string) (supported_models : list string) : Py.exn :=
  Py.LookupError ("Model '" ++ model ++ "' is not supported. Available models: "
                  ++ Py.repr_list supported_models).

(** [get_openai_output], lines 29-96.  [max_tokens_arg] is [None] when
    the caller leaves the argument out. *)
Definition get_openai_output (pil_image : Image) (prompt model : string)
    (max_tokens_arg : option Z) : M (option string) :=
  let max_tokens := match max_tokens_arg with Some n => n | None => 300%Z end in
  api_key <- os_environ_get "OPENAI_API_KEY" ;;
  if_not api_key
    (raise (Py.EnvironmentError
       "OpenAI API key is missing. Set 'OPENAI_API_KEY' in environment variables."))
    (fun api_key =>
     try_except
       (let client := openai.Build_OpenAI api_key in
        page <- client_models_list client ;;
        let supported_models := map openai.id (openai.data page) in
        if negb (Py.contains model supported_models)
        then raise (not_supported model supported_models)
        else
          image_base64 <- pil2base64 pil_image ;;
          let image_url := "data:image/jpeg;base64," ++ image_base64 in
          response <- client_chat_completions_create client
            (openai.Build_Request model
               [openai.Build_Message "user"
                  [openai.text_part prompt; openai.image_url_part image_url]]
               max_tokens) ;;
          choice <- lift (Py.index (openai.choices response) 0) ;;
          let output := openai.message_content (openai.message choice) in
          ret output)
       [("LookupError", fun e => raise e);
        ("Exception",
         fun e => raise (Py.RuntimeError
                    ("Failed to generate OpenAI output: " ++ Py.exc_str e)))]).

(** [get_gemini_output], lines 99-145. *)
Definition get_gemini_output (pil_image : Image) (prompt model : string) : M string :=
  api_key <- os_environ_get "GOOGLE_API_KEY" ;;
  if_not api_key
    (raise (Py.EnvironmentError
       "Google API key is missing. Set 'GOOGLE_API_KEY' in environment variables."))
    (fun api_key =>
     try_except
       (genai_configure api_key "rest" ;;;
        models <- genai_list_models_ ;;
        let supported_models := map genai.name models in
        if negb (Py.contains model supported_models)
        then raise (not_supported model supported_models)
        else
          let generative_model := genai.Build_GenerativeModel model in
          response <- generative_model_generate_content generative_model prompt pil_image ;;
          output <- lift (genai.text response) ;;
          ret output)
       [("LookupError", fun e => raise e);
        ("Exception",
         fun e => raise (Py.RuntimeError
                    ("Failed to generate Gemini output: " ++ Py.exc_str e)))]).

End ApiClients.

Arguments models_list {Image} client.
Arguments chat_completions_create {Image} client request.
Arguments list_models {Image} config.
Arguments generate_content {Image} config generative_model prompt image.
Arguments Build_Vendor {Image}.
Arguments openai_models_list {Image} v.
Arguments openai_chat_completions_create {Image} v.
Arguments genai_list_models {Image} v.
Arguments genai_generate_content {Image} v.
Arguments Image_save {Image} v.
Arguments Build_State {Image}.
Arguments environ {Image} s.
Arguments genai_config {Image} s.
Arguments calls {Image} s.
Arguments Return {A} a.
Arguments Raise {A} e.
Arguments pil2base64 {Image} vendor pil_image.
Arguments get_openai_output {Image} vendor pil_image prompt model max_tokens_arg.
Arguments get_gemini_output {Image} vendor pil_image prompt model.

(** The calls an invocation added to the log. *)
Definition new_calls {Image : Type} (st st' : State Image) : list (Call Image) :=
  skipn (List.length (calls st)) (calls st').

(** The process-global state apart from the log of outbound calls. *)
Definition globals {Image : Type} (st : State Image)
  : list (string * string) * option genai.Config :=
  (environ st, genai_config st).

(** What the two [except] clauses of a query (lines 92-96 and 141-145)
    make of an exception raised in the [try] body: an instance of
    [LookupError] leaves as it is, another instance of [Exception] leaves
    as a [RuntimeError] whose message is [msg] followed by [str(e)]. *)
Definition reraised (msg : string) (e : Py.exn) : Py.exn :=
  if Py.isinstance e "LookupError" then e
  else if Py.isinstance e "Exception" then Py.RuntimeError (msg ++ Py.exc_str e)
  else e.

(** What the [except] clause of [pil2base64] (lines 25-26) makes of an
    exception raised by the save. *)
Definition encoding_error (e : Py.exn) : Py.exn :=
  if Py.isinstance e "Exception"
  then Py.RuntimeError ("Failed to convert image to base64: " ++ Py.exc_str e)
  else e.

(** *** Shape of the calls of one invocation *)

Definition is_list_call {Image : Type} (c : Call Image) : bool :=
  match c with
  | models_list _ | list_models _ => true
  | _ => false
  end.

Definition is_generate_call {Image : Type} (c : Call Image) : bool :=
  match c with
  | chat_completions_create _ _ | generate_content _ _ _ _ => true
  | _ => false
  end.

(** Nothing, or one model-list call, or one model-list call followed by
    one generate-content call. *)
Definition list_then_generate {Image : Type} (new : list (Call Image)) : Prop :=
  new = [] \/
  (exists l, new = [l] /\ is_list_call l = true) \/
  (exists l g, new = [l; g] /\ is_list_call l = true /\ is_generate_call g = true).

(** The catalog each provider answers to a model-list call issued in
    state [st] with the credential of the environment. *)
Definition openai_catalog {Image : Type} (vendor : Vendor Image) (st : State Image)
  : option (list string) :=
  match Py.get (environ st) "OPENAI_API_KEY" with
  | Some key =>
      match openai_models_list vendor (calls st) (openai.Build_OpenAI key) with
      | inr page => Some (map openai.id (openai.data page))
      | inl _ => None
      end
  | None => None
  end.

Definition gemini_catalog {Image : Type} (vendor : Vendor Image) (st : State Image)
  : option (list string) :=
  match Py.get (environ st) "GOOGLE_API_KEY" with
  | Some key =>
      match genai_list_models vendor (calls st)
              (Some (genai.Build_Config key "rest")) with
      | inr models => Some (map genai.name models)
      | inl _ => None
      end
  | None => None
  end.

(** One invocation as a linear sequence: from state [st], with the
    credential [credential] read from the environment and [catalog] what
    the provider answers now, the run [out] of a query for [model]
    - only appends to the log, at most a model-list call and then a
      generate-content call;
    - makes no call without a credential;
    - with a credential starts by fetching the catalog, whatever calls
      were made before;
    - generates only after the model was found in the catalog just fetched;
    - makes exactly the two calls, in that order, when it returns. *)
Definition linear_sequence {Image A : Type} (st : State Image)
    (out : result A * State Image) (credential : option string)
    (catalog : option (list string)) (model : string) : Prop :=
  let new := new_calls st (snd out) in
  calls (snd out) = (calls st ++ new)%list /\
  list_then_generate new /\
  (Py.truthy credential = false -> new = []) /\
  (Py.truthy credential = true ->
   exists l rest, new = l :: rest /\ is_list_call l = true) /\
  (forall g, In g new -> is_generate_call g = true ->
   exists ids, catalog = Some ids /\ Py.contains model ids = true) /\
  (forall v, fst out = Return v ->
   exists l g, new = [l; g] /\ is_list_call l = true /\ is_generate_call g = true).

(** The request of lines 68-86 for a bitmap whose PNG bytes are [png]. *)
Definition openai_request (prompt model : string) (max_tokens_arg : option Z)
    (png : list byte) : openai.Request :=
  openai.Build_Request model
    [openai.Build_Message "user"
       [openai.text_part prompt;
        openai.image_url_part
          ("data:image/jpeg;base64," ++ decode_utf8 (Base64.b64encode png))]]
    (match max_tokens_arg with Some n => n | None => 300%Z end).

(** *** Reading an encoded image back *)

(** Base64-decode the text, then open the bytes as an image. *)
Definition decode_image {Image : Type} (Image_open : list byte -> option Image)
    (text : string) : option Image :=
  match Base64.decode (encode_utf8 text) with
  | Some data => Image_open data
  | None => None
  end.

(** The image read back from what the encoder returns for a bitmap:
    encode, base64-decode, open. *)
Definition read_back {Image : Type} (vendor : Vendor Image)
    (Image_open : list byte -> option Image) (pil_image : Image)
    (st : State Image) : option Image :=
  match fst (pil2base64 vendor pil_image st) with
  | Return text => decode_image Image_open text
  | Raise _ => None
  end.

(** *** Network requests behind the calls

    [genai.list_models()] returns an iterator over a paged listing: the
    list comprehension of line 127 draws it to its end, and the library
    sends one request for every page the provider serves.  The other
    calls are one request each. *)

(** A listing as the provider serves it: a first page and those that
    follow. *)
Record Listing : Type := Build_Listing {
  first_page : list genai.Model;
  next_pages : list (list genai.Model)
}.

(** What iterating over the listing yields. *)
Definition listing_models (l : Listing) : list genai.Model :=
  (first_page l ++ List.concat (next_pages l))%list.

Definition listing_requests (l : Listing) : nat := S (List.length (next_pages l)).

(** The network requests behind the calls of an invocation of
    [get_gemini_output], for a provider that serves the listing [l]. *)
Definition gemini_requests {Image : Type} (l : Listing) (new : list (Call Image)) : nat :=
  list_sum
    (map (fun c => match c with
                   | list_models _ => listing_requests l
                   | _ => 1
                   end) new).

(** *** Data URIs and MIME types *)

Fixpoint until_semicolon (s : string) : string :=
  match s with
  | EmptyString => EmptyString
  | String c rest =>
      if Ascii.eqb c ";"%char then EmptyString else String c (until_semicolon rest)
  end.

(** The media type a [data:] URI declares. *)
Definition declared_mime (url : string) : option string :=
  match url with
  | String "d" (String "a" (String "t" (String "a" (String ":" rest)))) =>
      Some (until_semicolon rest)
  | _ => None
  end.

(** The base64 payload of a [data:] URI: what follows the first comma. *)
Fixpoint after_comma (s : string) : option string :=
  match s with
  | EmptyString => None
  | String c rest => if Ascii.eqb c ","%char then Some rest else after_comma rest
  end.

(** The media type of the file formats of [PIL.Image.MIME] that occur here. *)
Definition Image_MIME (format : string) : option string :=
  if String.eqb format "PNG" then Some "image/png"
  else if String.eqb format "JPEG" then Some "image/jpeg"
  else None.

(** ** Stubbed vendors

    Scenarios with a bitmap given by its raw bytes, a save routine that
    frames them, and providers that answer from a fixed script. *)

Module Stub.

Definition Bitmap : Type := list byte.

Definition signature : list byte := list_byte_of_string "PNG:".

(** Saves as [PNG] only; an empty bitmap cannot be written. *)
Definition save (img : Bitmap) (format : string) : Py.exn + list byte :=
  if String.eqb format "PNG" then
    match img with
    | [] => inl (Py.ValueError "cannot write empty image as PNG")
    | _ => inr (signature ++ img)%list
    end
  else inl (Py.KeyError ("'" ++ format ++ "'")).

Definition open (data : list byte) : option Bitmap :=
  match data with
  | x50 :: x4e :: x47 :: x3a :: img => Some img
  | _ => None
  end.

(** A provider pair whose catalog may depend on the calls made so far. *)
Definition vendor
    (catalog : list (Call Bitmap) -> Py.exn + list string)
    (chat : Py.exn + openai.ChatCompletion)
    (generated : Py.exn + genai.GenerateContentResponse) : Vendor Bitmap :=
  Build_Vendor
    (fun history _ =>
       match catalog history with
       | inr ids => inr (openai.Build_SyncPage (map openai.Build_Model ids))
       | inl e => inl e
       end)
    (fun _ _ _ => chat)
    (fun history _ =>
       match catalog history with
       | inr names => inr (map genai.Build_Model names)
       | inl e => inl e
       end)
    (fun _ _ _ _ _ => generated)
    save.

Definition fixed (ids : list string) : list (Call Bitmap) -> Py.exn + list string :=
  fun _ => inr ids.

Definition env (key value : string) : list (string * string) :=
  [("HOME", "/root"); (key, value)].

Definition no_env : list (string * string) := [("HOME", "/root")].

Definition both_env : list (string * string) :=
  [("OPENAI_API_KEY", "sk-a"); ("GOOGLE_API_KEY", "g-b")].

(** A catalog that holds [m1] until it has been listed once, and [m2]
    from then on. *)
Definition rotating : list (Call Bitmap) -> Py.exn + list string :=
  fun history => if existsb is_list_call history then inr ["m2"] else inr ["m1"].

Definition state (environ : list (string * string)) : State Bitmap :=
  Build_State environ None [].

Definition img : Bitmap := [x01; x02; x03; x04; x05].

Definition say (text : option string) : openai.ChatCompletion :=
  openai.Build_ChatCompletion
    [openai.Build_Choice (openai.Build_ChatCompletionMessage text)].

Definition empty_reply : openai.ChatCompletion := openai.Build_ChatCompletion [].

Definition gsay (text : string) : genai.GenerateContentResponse :=
  genai.Build_GenerateContentResponse (inr text).

(** Providers with the catalog [m1, m2] that answer [hello]. *)
Definition hello : Vendor Bitmap :=
  vendor (fixed ["m1"; "m2"]) (inr (say (Some "hello"))) (inr (gsay "hello")).

(** The same providers with a catalog that changes after the first listing. *)
Definition hello_rotating : Vendor Bitmap :=
  vendor rotating (inr (say (Some "hello"))) (inr (gsay "hello")).

(** Provider A answers with an empty list of choices. *)
Definition no_choices : Vendor Bitmap :=
  vendor (fixed ["m1"]) (inr empty_reply) (inr (gsay "hello")).

(** The generate-content call of either provider fails on a dictionary
    lookup. *)
Definition lookup_failure : Py.exn := Py.KeyError "'candidates'".

Definition failing : Vendor Bitmap :=
  vendor (fixed ["m1"]) (inl lookup_failure) (inl lookup_failure).

Definition openai_state : State Bitmap := state (env "OPENAI_API_KEY" "sk-a").

(** A network failure, an [OSError] that is no [LookupError]. *)
Definition connection_error : Py.exn :=
  Py.mk_exn ("ConnectionError" :: "OSError" :: Py.base_mro) "Connection refused".

(** Providers that cannot be reached at all. *)
Definition offline : Vendor Bitmap :=
  vendor (fun _ => inl connection_error) (inl connection_error) (inl connection_error).

(** Providers that list [m1] and then drop the generate-content call. *)
Definition dropping : Vendor Bitmap :=
  vendor (fixed ["m1"]) (inl connection_error) (inl connection_error).

(** A provider that serves its catalog [m1, m2] on two pages. *)
Definition two_pages : Listing :=
  Build_Listing [genai.Build_Model "m1"] [[genai.Build_Model "m2"]].

Definition paged : Vendor Bitmap :=
  Build_Vendor
    (fun _ _ => inl connection_error)
    (fun _ _ _ => inl connection_error)
    (fun _ _ => inr (listing_models two_pages))
    (fun _ _ _ _ _ => inr (gsay "hello"))
    save.

(** Bitmaps of one channel with integer pixels of any depth, and a codec
    that stores sixteen bits of each pixel, the deepest sample a PNG
    holds: every bitmap is saved, and a pixel that needs more bits is
    read back as another. *)
Definition Deep : Type := list N.

Definition low_byte (n : N) : byte :=
  match Byte.of_N (n mod 256) with
  | Some b => b
  | None => x00
  end.

Definition save16 (img : Deep) (format : string) : Py.exn + list byte :=
  if String.eqb format "PNG"
  then inr (flat_map (fun v => [low_byte (v / 256); low_byte v]) img)
  else inl (Py.KeyError ("'" ++ format ++ "'")).

Fixpoint open16 (data : list byte) : option Deep :=
  match data with
  | [] => Some []
  | hi :: lo :: rest =>
      option_map (cons (Byte.to_N hi * 256 + Byte.to_N lo)%N) (open16 rest)
  | _ => None
  end.

Definition deep : Vendor Deep :=
  Build_Vendor
    (fun _ _ => inl connection_error)
    (fun _ _ _ => inl connection_error)
    (fun _ _ => inl connection_error)
    (fun _ _ _ _ _ => inl connection_error)
    save16.

Definition deep_state : State Deep := Build_State [] None [].

(** One pixel that fits sixteen bits, and one that does not. *)
Definition dim : Deep := [513%N].
Definition bright : Deep := [70000%N].

(** Both credentials set, to the empty string. *)
Definition empty_keys_state : State Bitmap :=
  state [("OPENAI_API_KEY", EmptyString); ("GOOGLE_API_KEY", EmptyString)].

Definition both_state : State Bitmap := state both_env.

End Stub.

(** * Properties *)

(** ** Base64 *)

Module Base64Facts.
Import Base64.
Local Open Scope N_scope.

Ltac Zify.zify_post_hook ::= Z.div_mod_to_equations.

Lemma sextet_of_char_of_sextet n :
  n < 64 -> sextet_of_char (char_of_sextet n) = Some n.
Proof.
  intro H. rewrite <- (N2Nat.id n).
  assert (Hk : (N.to_nat n < 64)%nat) by lia.
  generalize dependent (N.to_nat n). intros k Hk.
  do 64 (destruct k as [|k]; [reflexivity|]). lia.
Qed.

Lemma char_of_sextet_not_pad n : n < 64 -> is_pad (char_of_sextet n) = false.
Proof.
  intro H. rewrite <- (N2Nat.id n).
  assert (Hk : (N.to_nat n < 64)%nat) by lia.
  generalize dependent (N.to_nat n). intros k Hk.
  do 64 (destruct k as [|k]; [reflexivity|]). lia.
Qed.

Lemma char_of_sextet_ascii n : Byte.to_N (char_of_sextet n) < 128.
Proof.
  unfold char_of_sextet. generalize (N.to_nat n). intro k.
  do 64 (destruct k as [|k]; [reflexivity|]). reflexivity.
Qed.

Lemma of_N_small n : n < 256 -> exists b, Byte.of_N n = Some b /\ Byte.to_N b = n.
Proof.
  intro H. destruct (Byte.of_N n) as [b|] eqn:E.
  - exists b. split; [reflexivity | now apply Byte.to_of_N].
  - apply Byte.of_N_None_iff in E. lia.
Qed.

Lemma mod64_lt x : x mod 64 < 64.
Proof. apply N.mod_lt. discriminate. Qed.

(** The four 6-bit values of a group put together give the group back. *)
Lemma sextets_sum n :
  n / 262144 * 262144 + n / 4096 mod 64 * 4096 + n / 64 mod 64 * 64 + n mod 64 = n.
Proof.
  change 262144 with (64 * 64 * 64). change 4096 with (64 * 64).
  rewrite <- !N.Div0.div_div.
  pose proof (N.div_mod n 64). pose proof (N.div_mod (n / 64) 64).
  pose proof (N.div_mod (n / 64 / 64) 64).
  set (x := n / 64) in *. set (y := x / 64) in *. set (z := y / 64) in *.
  set (r1 := n mod 64) in *. set (r2 := x mod 64) in *. set (r3 := y mod 64) in *.
  clearbody x y z r1 r2 r3. lia.
Qed.

(** A group of one byte has its low twelve bits clear, a group of two
    bytes its low six. *)
Lemma group1_low a : (a * 65536) / 64 mod 64 = 0 /\ (a * 65536) mod 64 = 0.
Proof.
  assert (E : (a * 65536) / 64 = a * 1024).
  { symmetry. apply N.div_unique with 0; lia. }
  split.
  - rewrite E. symmetry. apply N.mod_unique with (a * 16); lia.
  - symmetry. apply N.mod_unique with (a * 1024); lia.
Qed.

Lemma group2_low a b : (a * 65536 + b * 256) mod 64 = 0.
Proof. symmetry. apply N.mod_unique with (a * 1024 + b * 4); lia. Qed.

Lemma octets a b c :
  a <= 255 -> b <= 255 -> c <= 255 ->
  (a * 65536 + b * 256 + c) / 65536 = a /\
  (a * 65536 + b * 256 + c) / 256 mod 256 = b /\
  (a * 65536 + b * 256 + c) mod 256 = c.
Proof.
  intros Ha Hb Hc.
  assert (E1 : (a * 65536 + b * 256 + c) / 256 = a * 256 + b).
  { symmetry. apply N.div_unique with c; lia. }
  repeat split.
  - symmetry. apply N.div_unique with (b * 256 + c); lia.
  - rewrite E1. symmetry. apply N.mod_unique with a; lia.
  - symmetry. apply N.mod_unique with (a * 256 + b); lia.
Qed.

Lemma bytes_of_group_3 a b c :
  bytes_of_group (Byte.to_N a * 65536 + Byte.to_N b * 256 + Byte.to_N c) 3
  = Some [a; b; c].
Proof.
  destruct (octets (Byte.to_N a) (Byte.to_N b) (Byte.to_N c)) as [E1 [E2 E3]];
    try apply Byte.to_N_bounded.
  unfold bytes_of_group. rewrite E1, E2, E3.
  now rewrite !Byte.of_to_N.
Qed.

Lemma bytes_of_group_firstn n count a b c :
  n = Byte.to_N a * 65536 + Byte.to_N b * 256 + Byte.to_N c ->
  bytes_of_group n count = Some (firstn count [a; b; c]).
Proof.
  intros ->. pose proof (bytes_of_group_3 a b c) as H.
  unfold bytes_of_group in *.
  destruct (Byte.of_N _) as [a'|]; [|discriminate].
  destruct (Byte.of_N _) as [b'|]; [|discriminate].
  destruct (Byte.of_N _) as [c'|]; [|discriminate].
  now inversion H.
Qed.

(** Induction over a byte string three bytes at a time. *)
Lemma list_ind3 {A : Type} (P : list A -> Prop) :
  P [] -> (forall a, P [a]) -> (forall a b, P [a; b]) ->
  (forall a b c rest, P rest -> P (a :: b :: c :: rest)) ->
  forall l, P l.
Proof.
  intros H0 H1 H2 H3.
  assert (H : forall l, P l /\ (forall a, P (a :: l)) /\ (forall a b, P (a :: b :: l))).
  { induction l as [|x l [IH0 [IH1 IH2]]].
    - repeat split; auto.
    - repeat split; auto. }
  intro l. apply H.
Qed.

Ltac sextet_bound := first [apply mod64_lt | lia].

Theorem decode_b64encode bs : decode (b64encode bs) = Some bs.
Proof.
  induction bs as [|a|a b|a b c rest IH] using list_ind3.
  - reflexivity.
  - pose proof (Byte.to_N_bounded a).
    cbn [b64encode decode].
    rewrite !sextet_of_char_of_sextet by sextet_bound.
    change (is_pad pad) with true. cbn [andb].
    apply (bytes_of_group_firstn _ 1 a x00 x00). cbn [Byte.to_N].
    pose proof (sextets_sum (Byte.to_N a * 65536)) as S.
    destruct (group1_low (Byte.to_N a)) as [L1 L2].
    rewrite L1, L2 in S. lia.
  - pose proof (Byte.to_N_bounded a). pose proof (Byte.to_N_bounded b).
    cbn [b64encode decode].
    rewrite !sextet_of_char_of_sextet by sextet_bound.
    rewrite char_of_sextet_not_pad by sextet_bound.
    change (is_pad pad) with true. cbn [andb].
    apply (bytes_of_group_firstn _ 2 a b x00). cbn [Byte.to_N].
    pose proof (sextets_sum (Byte.to_N a * 65536 + Byte.to_N b * 256)) as S.
    rewrite group2_low in S. lia.
  - pose proof (Byte.to_N_bounded a). pose proof (Byte.to_N_bounded b).
    pose proof (Byte.to_N_bounded c).
    cbn [b64encode decode].
    rewrite !sextet_of_char_of_sextet by sextet_bound.
    rewrite !char_of_sextet_not_pad by sextet_bound.
    cbn [andb]. rewrite IH.
    rewrite (bytes_of_group_firstn _ 3 a b c) by apply sextets_sum.
    reflexivity.
Qed.

Lemma b64encode_ascii bs :
  Forall (fun b => Byte.to_N b < 128) (b64encode bs).
Proof.
  induction bs as [|a|a b|a b c rest IH] using list_ind3; cbn [b64encode];
    repeat constructor; try apply char_of_sextet_ascii; assumption.
Qed.

End Base64Facts.

(** ** [repr] of a catalog determines the catalog *)

Module ReprFacts.
Import Py.

Lemma unrepr_repr_char (q c : ascii) (rest : string) :
  q = "'"%char \/ q = dquote ->
  unrepr_body q (repr_char q c ++ rest) = push c (unrepr_body q rest).
Proof.
  intros [-> | ->];
    destruct c as [[] [] [] [] [] [] [] []]; reflexivity.
Qed.

Lemma repr_quote_cases (s : string) : repr_quote s = "'"%char \/ repr_quote s = dquote.
Proof. unfold repr_quote. destruct (_ && _); auto. Qed.

Lemma append_assoc (a b c : string) : ((a ++ b) ++ c = a ++ (b ++ c))%string.
Proof. induction a as [|x a IH]; cbn; [reflexivity | now rewrite IH]. Qed.

Lemma unrepr_repr_body (q : ascii) (s rest : string) :
  q = "'"%char \/ q = dquote ->
  unrepr_body q (repr_body q s ++ String q rest) = Some (s, rest).
Proof.
  intro Hq. induction s as [|c s IH].
  - cbn. now rewrite Ascii.eqb_refl.
  - cbn [repr_body]. rewrite append_assoc, unrepr_repr_char by assumption.
    rewrite IH. reflexivity.
Qed.

(** A [repr] followed by anything can be split in one way only. *)
Lemma repr_str_prefix_free (s1 s2 r1 r2 : string) :
  (repr_str s1 ++ r1 = repr_str s2 ++ r2)%string -> s1 = s2 /\ r1 = r2.
Proof.
  unfold repr_str. cbn [append]. intro H. inversion H as [[Hq Hb]].
  rewrite !append_assoc in Hb. cbn [append] in Hb.
  pose proof (unrepr_repr_body (repr_quote s1) s1 r1 (repr_quote_cases s1)) as P1.
  pose proof (unrepr_repr_body (repr_quote s2) s2 r2 (repr_quote_cases s2)) as P2.
  rewrite Hb, Hq in P1. rewrite P1 in P2. now inversion P2.
Qed.

Lemma append_inj_l (p a b : string) : (p ++ a = p ++ b)%string -> a = b.
Proof. induction p as [|c p IH]; cbn; intro H; [assumption | inversion H; auto]. Qed.

Lemma repr_str_head (s r : string) :
  exists q t, (repr_str s ++ r)%string = String q t /\ (q = "'"%char \/ q = dquote).
Proof.
  unfold repr_str. cbn [append]. do 2 eexists. split; [reflexivity|].
  apply repr_quote_cases.
Qed.

Lemma items_cons (x : string) (xs : list string) :
  items (x :: xs)
  = (repr_str x ++ match xs with [] => "]" | _ => ", " ++ items xs end)%string.
Proof.
  unfold items. destruct xs as [|y xs]; [reflexivity|].
  cbn [map join]. now rewrite !append_assoc.
Qed.

Lemma items_inj (xs ys : list string) : items xs = items ys -> xs = ys.
Proof.
  revert ys. induction xs as [|x xs IH]; intros [|y ys] H.
  - reflexivity.
  - rewrite items_cons in H.
    destruct (repr_str_head y (match ys with [] => "]" | _ => ", " ++ items ys end))
      as [q [t [E [-> | ->]]]]; rewrite E in H; discriminate H.
  - rewrite items_cons in H.
    destruct (repr_str_head x (match xs with [] => "]" | _ => ", " ++ items xs end))
      as [q [t [E [-> | ->]]]]; rewrite E in H; discriminate H.
  - rewrite !items_cons in H. apply repr_str_prefix_free in H.
    destruct H as [-> H]. f_equal.
    destruct xs as [|x' xs], ys as [|y' ys]; try reflexivity.
    + rewrite items_cons in H. discriminate H.
    + rewrite items_cons in H. discriminate H.
    + apply IH. now apply (append_inj_l ", ").
Qed.

Theorem repr_list_inj (xs ys : list string) : repr_list xs = repr_list ys -> xs = ys.
Proof.
  unfold repr_list. intro H. apply (append_inj_l "[") in H. now apply items_inj.
Qed.

End ReprFacts.

(** ** The image encoder and the two queries *)

Section Properties.

Context {Image : Type} (vendor : Vendor Image).

Implicit Types (st : State Image) (pil_image : Image) (prompt model : string).

Lemma new_calls_app st st' (l : list (Call Image)) :
  calls st' = (calls st ++ l)%list -> new_calls st st' = l.
Proof.
  intro H. unfold new_calls. rewrite H.
  rewrite skipn_app, skipn_all, Nat.sub_diag. reflexivity.
Qed.

Lemma truthy_some (key : string) :
  key <> EmptyString -> Py.truthy (Some key) = true.
Proof.
  intro H. unfold Py.truthy. destruct (String.eqb_spec key EmptyString); [contradiction|reflexivity].
Qed.

Lemma truthy_inv (v : option string) :
  Py.truthy v = true -> exists key, v = Some key /\ key <> EmptyString.
Proof.
  destruct v as [key|]; [|discriminate]. unfold Py.truthy.
  destruct (String.eqb_spec key EmptyString); [discriminate|]. eauto.
Qed.

(** Unfolding of the monad and of the primitive operations. *)
Ltac run :=
  unfold get_openai_output, get_gemini_output, bind, if_not,
    os_environ_get, try_except, client_models_list,
    client_chat_completions_create, genai_configure, genai_list_models_,
    generative_model_generate_content, record, not_supported in *.

Ltac norm := cbn [lift ret raise fst snd negb environ genai_config calls] in *.

Lemma openai_missing_key pil_image prompt model max_tokens_arg st :
  Py.truthy (Py.get (environ st) "OPENAI_API_KEY") = false ->
  get_openai_output vendor pil_image prompt model max_tokens_arg st
  = (Raise (Py.EnvironmentError
       "OpenAI API key is missing. Set 'OPENAI_API_KEY' in environment variables."),
     st).
Proof.
  intro H. run.
  destruct (Py.get (environ st) "OPENAI_API_KEY"); [rewrite H|]; reflexivity.
Qed.

Lemma gemini_missing_key pil_image prompt model st :
  Py.truthy (Py.get (environ st) "GOOGLE_API_KEY") = false ->
  get_gemini_output vendor pil_image prompt model st
  = (Raise (Py.EnvironmentError
       "Google API key is missing. Set 'GOOGLE_API_KEY' in environment variables."),
     st).
Proof.
  intro H. run.
  destruct (Py.get (environ st) "GOOGLE_API_KEY"); [rewrite H|]; reflexivity.
Qed.

(** C3.  When the credential is absent from the environment, either
    query raises the configuration error (an [EnvironmentError]) and
    leaves the state as it found it: the log of outbound calls has not
    grown, so no model-list call and no generate-content call was made. *)
Theorem missing_credential_raises_before_any_call
    pil_image prompt model max_tokens_arg st :
  (Py.get (environ st) "OPENAI_API_KEY" = None ->
   get_openai_output vendor pil_image prompt model max_tokens_arg st
   = (Raise (Py.EnvironmentError
        "OpenAI API key is missing. Set 'OPENAI_API_KEY' in environment variables."),
      st)
   /\ new_calls st (snd (get_openai_output vendor pil_image prompt model
                           max_tokens_arg st)) = [])
  /\
  (Py.get (environ st) "GOOGLE_API_KEY" = None ->
   get_gemini_output vendor pil_image prompt model st
   = (Raise (Py.EnvironmentError
        "Google API key is missing. Set 'GOOGLE_API_KEY' in environment variables."),
      st)
   /\ new_calls st (snd (get_gemini_output vendor pil_image prompt model st)) = []).
Proof.
  split; intro H.
  - rewrite openai_missing_key by (rewrite H; reflexivity).
    split; [reflexivity|]. apply new_calls_app. cbn. now rewrite app_nil_r.
  - rewrite gemini_missing_key by (rewrite H; reflexivity).
    split; [reflexivity|]. apply new_calls_app. cbn. now rewrite app_nil_r.
Qed.

(** What [pil2base64] does, by the answer of the save. *)
Lemma pil2base64_eq pil_image st :
  pil2base64 vendor pil_image st
  = match Image_save vendor pil_image "PNG" with
    | inr png => (Return (decode_utf8 (Base64.b64encode png)), st)
    | inl e => (Raise (encoding_error e), st)
    end.
Proof.
  unfold pil2base64, encoding_error. run.
  destruct (Image_save vendor pil_image "PNG") as [e|png]; norm; [|reflexivity].
  cbn [handle]. destruct (Py.isinstance e "Exception"); reflexivity.
Qed.

Lemma pil2base64_state pil_image st : snd (pil2base64 vendor pil_image st) = st.
Proof.
  unfold pil2base64. run. destruct (Image_save vendor pil_image "PNG") as [e|png]; norm; [|reflexivity].
  cbn [handle]. destruct (Py.isinstance e "Exception"); reflexivity.
Qed.

Lemma pil2base64_ok pil_image st png :
  Image_save vendor pil_image "PNG" = inr png ->
  pil2base64 vendor pil_image st
  = (Return (decode_utf8 (Base64.b64encode png)), st).
Proof. intro H. rewrite pil2base64_eq, H. reflexivity. Qed.

Lemma pil2base64_fails pil_image st e :
  Image_save vendor pil_image "PNG" = inl e ->
  Py.isinstance e "Exception" = true ->
  pil2base64 vendor pil_image st
  = (Raise (Py.RuntimeError ("Failed to convert image to base64: " ++ Py.exc_str e)),
     st).
Proof.
  intros H He. rewrite pil2base64_eq, H. unfold encoding_error. rewrite He. reflexivity.
Qed.

(** C8.  A bitmap whose serialization as PNG fails makes the encoder
    fail with its encoding error, a [RuntimeError] that embeds the
    message of the failure; a bitmap that serializes yields the base64
    text of its PNG bytes. *)
Theorem pil2base64_spec pil_image st :
  (forall e,
     Image_save vendor pil_image "PNG" = inl e ->
     Py.isinstance e "Exception" = true ->
     pil2base64 vendor pil_image st
     = (Raise (Py.RuntimeError
          ("Failed to convert image to base64: " ++ Py.exc_str e)), st))
  /\
  (forall png,
     Image_save vendor pil_image "PNG" = inr png ->
     pil2base64 vendor pil_image st
     = (Return (decode_utf8 (Base64.b64encode png)), st)).
Proof.
  split; intros; [now apply pil2base64_fails | now apply pil2base64_ok].
Qed.

Lemma get_key (d : list (string * string)) (name key : string) :
  Py.get d name = Some key -> key <> EmptyString ->
  Py.truthy (Py.get d name) = true.
Proof. intros -> H. now apply truthy_some. Qed.

Lemma openai_returns pil_image prompt model max_tokens_arg st
    key page png response choice rest :
  Py.get (environ st) "OPENAI_API_KEY" = Some key ->
  key <> EmptyString ->
  let client := openai.Build_OpenAI key in
  let request := openai_request prompt model max_tokens_arg png in
  openai_models_list vendor (calls st) client = inr page ->
  Py.contains model (map openai.id (openai.data page)) = true ->
  Image_save vendor pil_image "PNG" = inr png ->
  openai_chat_completions_create vendor (calls st ++ [models_list client]) client request
  = inr response ->
  openai.choices response = choice :: rest ->
  get_openai_output vendor pil_image prompt model max_tokens_arg st
  = (Return (openai.message_content (openai.message choice)),
     Build_State (environ st) (genai_config st)
       (calls st ++ [models_list client; chat_completions_create client request])).
Proof.
  intros Hkey Hne client request Hlist Hin Hsave Hcreate Hchoices.
  subst client request. unfold openai_request in *.
  run. rewrite Hkey, (truthy_some key Hne). norm.
  rewrite Hlist. norm. rewrite Hin. norm.
  rewrite pil2base64_eq, Hsave. norm. rewrite Hcreate. norm.
  rewrite Hchoices. cbn [Py.index nth_error]. norm.
  rewrite <- app_assoc. reflexivity.
Qed.

Lemma gemini_returns pil_image prompt model st key models response output :
  Py.get (environ st) "GOOGLE_API_KEY" = Some key ->
  key <> EmptyString ->
  let config := Some (genai.Build_Config key "rest") in
  let generative_model := genai.Build_GenerativeModel model in
  genai_list_models vendor (calls st) config = inr models ->
  Py.contains model (map genai.name models) = true ->
  genai_generate_content vendor (calls st ++ [list_models config]) config
    generative_model prompt pil_image = inr response ->
  genai.text response = inr output ->
  get_gemini_output vendor pil_image prompt model st
  = (Return output,
     Build_State (environ st) config
       (calls st ++ [list_models config;
                     generate_content config generative_model prompt pil_image])).
Proof.
  intros Hkey Hne config generative_model Hlist Hin Hgen Htext.
  subst config generative_model.
  run. rewrite Hkey, (truthy_some key Hne). norm.
  rewrite Hlist. norm. rewrite Hin. norm.
  rewrite Hgen. norm. rewrite Htext. norm.
  rewrite <- app_assoc. reflexivity.
Qed.

(** C4.  With the credential present, the model in the fetched catalog
    and a generate-content call that succeeds, the query returns the text
    of the reply as it is: for Provider A the content of the first choice
    (which may be [None] or empty), for Provider B the text field.  The
    log shows the one model-list call and the one generate-content call,
    so nothing was retried. *)
Theorem query_returns_reply_text pil_image prompt model st :
  (forall max_tokens_arg key page png response choice rest,
     Py.get (environ st) "OPENAI_API_KEY" = Some key ->
     key <> EmptyString ->
     openai_models_list vendor (calls st) (openai.Build_OpenAI key) = inr page ->
     Py.contains model (map openai.id (openai.data page)) = true ->
     Image_save vendor pil_image "PNG" = inr png ->
     openai_chat_completions_create vendor
       (calls st ++ [models_list (openai.Build_OpenAI key)])
       (openai.Build_OpenAI key) (openai_request prompt model max_tokens_arg png)
     = inr response ->
     openai.choices response = choice :: rest ->
     let out := get_openai_output vendor pil_image prompt model max_tokens_arg st in
     fst out = Return (openai.message_content (openai.message choice)) /\
     new_calls st (snd out)
     = [models_list (openai.Build_OpenAI key);
        chat_completions_create (openai.Build_OpenAI key)
          (openai_request prompt model max_tokens_arg png)])
  /\
  (forall key models response output,
     Py.get (environ st) "GOOGLE_API_KEY" = Some key ->
     key <> EmptyString ->
     genai_list_models vendor (calls st) (Some (genai.Build_Config key "rest"))
     = inr models ->
     Py.contains model (map genai.name models) = true ->
     genai_generate_content vendor
       (calls st ++ [list_models (Some (genai.Build_Config key "rest"))])
       (Some (genai.Build_Config key "rest"))
       (genai.Build_GenerativeModel model) prompt pil_image = inr response ->
     genai.text response = inr output ->
     let out := get_gemini_output vendor pil_image prompt model st in
     fst out = Return output /\
     new_calls st (snd out)
     = [list_models (Some (genai.Build_Config key "rest"));
        generate_content (Some (genai.Build_Config key "rest"))
          (genai.Build_GenerativeModel model) prompt pil_image]).
Proof.
  split.
  - intros max_tokens_arg key page png response choice rest
      Hkey Hne Hlist Hin Hsave Hcreate Hchoices out. subst out.
    rewrite (openai_returns _ _ _ _ _ _ _ _ _ _ _
               Hkey Hne Hlist Hin Hsave Hcreate Hchoices).
    split; [reflexivity|]. now apply new_calls_app.
  - intros key models response output Hkey Hne Hlist Hin Hgen Htext out. subst out.
    rewrite (gemini_returns _ _ _ _ _ _ _ _ Hkey Hne Hlist Hin Hgen Htext).
    split; [reflexivity|]. now apply new_calls_app.
Qed.

(** *** Every run of a query, case by case *)

Lemma handlers_eq {A : Type} (msg : string) (e : Py.exn) st :
  handle (A := A) Image
    [("LookupError", fun e => raise Image e);
     ("Exception", fun e => raise Image (Py.RuntimeError (msg ++ Py.exc_str e)))]
    e st
  = (Raise (reraised msg e), st).
Proof.
  cbn [handle]. unfold reraised.
  destruct (Py.isinstance e "LookupError"); [reflexivity|].
  destruct (Py.isinstance e "Exception"); reflexivity.
Qed.

Lemma openai_cases pil_image prompt model max_tokens_arg st :
  let out := get_openai_output vendor pil_image prompt model max_tokens_arg st in
  let wrap := reraised "Failed to generate OpenAI output: " in
  (Py.truthy (Py.get (environ st) "OPENAI_API_KEY") = false /\
   out = (Raise (Py.EnvironmentError
            "OpenAI API key is missing. Set 'OPENAI_API_KEY' in environment variables."),
          st))
  \/
  exists key,
    Py.get (environ st) "OPENAI_API_KEY" = Some key /\ key <> EmptyString /\
    let client := openai.Build_OpenAI key in
    let st1 := Build_State (environ st) (genai_config st)
                 (calls st ++ [models_list client]) in
    ((exists e, openai_models_list vendor (calls st) client = inl e /\
                out = (Raise (wrap e), st1))
     \/
     exists page,
       openai_models_list vendor (calls st) client = inr page /\
       ((Py.contains model (map openai.id (openai.data page)) = false /\
         out = (Raise (not_supported model (map openai.id (openai.data page))), st1))
        \/
        (Py.contains model (map openai.id (openai.data page)) = true /\
         ((exists e, Image_save vendor pil_image "PNG" = inl e /\
                     out = (Raise (wrap (encoding_error e)), st1))
          \/
          exists png,
            Image_save vendor pil_image "PNG" = inr png /\
            let request := openai_request prompt model max_tokens_arg png in
            let st2 := Build_State (environ st) (genai_config st)
                         (calls st ++ [models_list client;
                                       chat_completions_create client request]) in
            out =
            (match openai_chat_completions_create vendor (calls st1) client request with
             | inl e => Raise (wrap e)
             | inr response =>
                 match openai.choices response with
                 | [] => Raise (Py.IndexError "list index out of range")
                 | choice :: _ =>
                     Return (openai.message_content (openai.message choice))
                 end
             end, st2))))).
Proof.
  intros out wrap.
  destruct (Py.truthy (Py.get (environ st) "OPENAI_API_KEY")) eqn:Ht.
  2:{ left. split; [reflexivity|]. subst out. now apply openai_missing_key. }
  right. destruct (truthy_inv _ Ht) as [key [Hkey Hne]]. exists key.
  split; [assumption|]. split; [assumption|]. intros client st1.
  subst out client st1 wrap. unfold openai_request.
  run. rewrite Hkey, (truthy_some key Hne). norm.
  destruct (openai_models_list vendor (calls st) (openai.Build_OpenAI key))
    as [e|page] eqn:Hlist; norm.
  { left. exists e. split; [reflexivity|]. apply handlers_eq. }
  right. exists page. split; [reflexivity|].
  destruct (Py.contains model (map openai.id (openai.data page))) eqn:Hin; norm.
  2:{ left. split; reflexivity. }
  right. split; [reflexivity|].
  rewrite pil2base64_eq. fold (encoding_error).
  destruct (Image_save vendor pil_image "PNG") as [e|png] eqn:Hsave; norm.
  { left. exists e. split; [reflexivity|]. apply handlers_eq. }
  right. exists png. split; [reflexivity|].
  destruct (openai_chat_completions_create vendor _ _ _) as [e|response]; norm.
  { rewrite handlers_eq, <- app_assoc. reflexivity. }
  destruct (openai.choices response) as [|choice rest];
    cbn [Py.index nth_error]; norm; rewrite <- app_assoc; reflexivity.
Qed.

Lemma gemini_cases pil_image prompt model st :
  let out := get_gemini_output vendor pil_image prompt model st in
  let wrap := reraised "Failed to generate Gemini output: " in
  (Py.truthy (Py.get (environ st) "GOOGLE_API_KEY") = false /\
   out = (Raise (Py.EnvironmentError
            "Google API key is missing. Set 'GOOGLE_API_KEY' in environment variables."),
          st))
  \/
  exists key,
    Py.get (environ st) "GOOGLE_API_KEY" = Some key /\ key <> EmptyString /\
    let config := Some (genai.Build_Config key "rest") in
    let st1 := Build_State (environ st) config (calls st ++ [list_models config]) in
    ((exists e, genai_list_models vendor (calls st) config = inl e /\
                out = (Raise (wrap e), st1))
     \/
     exists models,
       genai_list_models vendor (calls st) config = inr models /\
       ((Py.contains model (map genai.name models) = false /\
         out = (Raise (not_supported model (map genai.name models)), st1))
        \/
        (Py.contains model (map genai.name models) = true /\
         let generative_model := genai.Build_GenerativeModel model in
         let st2 := Build_State (environ st) config
                      (calls st ++ [list_models config;
                                    generate_content config generative_model
                                      prompt pil_image]) in
         out =
         (match genai_generate_content vendor (calls st1) config generative_model
                  prompt pil_image with
          | inl e => Raise (wrap e)
          | inr response =>
              match genai.text response with
              | inl e => Raise (wrap e)
              | inr output => Return output
              end
          end, st2)))).
Proof.
  intros out wrap.
  destruct (Py.truthy (Py.get (environ st) "GOOGLE_API_KEY")) eqn:Ht.
  2:{ left. split; [reflexivity|]. subst out. now apply gemini_missing_key. }
  right. destruct (truthy_inv _ Ht) as [key [Hkey Hne]]. exists key.
  split; [assumption|]. split; [assumption|]. intros config st1.
  subst out config st1 wrap.
  run. rewrite Hkey, (truthy_some key Hne). norm.
  destruct (genai_list_models vendor (calls st) _) as [e|models] eqn:Hlist; norm.
  { left. exists e. split; [reflexivity|]. apply handlers_eq. }
  right. exists models. split; [reflexivity|].
  destruct (Py.contains model (map genai.name models)) eqn:Hin; norm.
  2:{ left. split; reflexivity. }
  right. split; [reflexivity|].
  destruct (genai_generate_content vendor _ _ _ _ _) as [e|response]; norm.
  { rewrite handlers_eq, <- app_assoc. reflexivity. }
  destruct (genai.text response) as [e|output]; norm.
  { rewrite handlers_eq, <- app_assoc. reflexivity. }
  rewrite <- app_assoc. reflexivity.
Qed.

(** *** Order and number of the outbound calls *)

Lemma linear_sequence_intro {A : Type} st (out : result A * State Image)
    credential catalog model (new : list (Call Image)) :
  calls (snd out) = (calls st ++ new)%list ->
  list_then_generate new ->
  (Py.truthy credential = false -> new = []) ->
  (Py.truthy credential = true ->
   exists l rest, new = l :: rest /\ is_list_call l = true) ->
  (forall g, In g new -> is_generate_call g = true ->
   exists ids, catalog = Some ids /\ Py.contains model ids = true) ->
  (forall v, fst out = Return v ->
   exists l g, new = [l; g] /\ is_list_call l = true /\ is_generate_call g = true) ->
  linear_sequence st out credential catalog model.
Proof.
  intros Hcalls. unfold linear_sequence.
  rewrite (new_calls_app _ _ _ Hcalls). cbv zeta. intuition.
Qed.

Ltac shape_nil := left; reflexivity.
Ltac shape_one := right; left; eexists; split; reflexivity.
Ltac shape_two := right; right; do 2 eexists; repeat split; reflexivity.

Ltac no_generate :=
  let g := fresh "g" in let Hg := fresh "Hg" in let Hgen := fresh "Hgen" in
  intros g Hg Hgen; cbn [In] in Hg;
  repeat match type of Hg with
         | _ \/ _ => destruct Hg as [Hg|Hg]
         | False => contradiction
         | _ = _ => subst g; discriminate Hgen
         end.

Lemma openai_linear pil_image prompt model max_tokens_arg st :
  linear_sequence st
    (get_openai_output vendor pil_image prompt model max_tokens_arg st)
    (Py.get (environ st) "OPENAI_API_KEY") (openai_catalog vendor st) model.
Proof.
  pose proof (openai_cases pil_image prompt model max_tokens_arg st) as H.
  cbv zeta in H. unfold openai_catalog.
  destruct H as [[Ht ->] | [key [Hkey [Hne H]]]].
  - apply linear_sequence_intro with (new := []); cbn [fst snd].
    + now rewrite app_nil_r.
    + shape_nil.
    + reflexivity.
    + congruence.
    + no_generate.
    + discriminate.
  - rewrite Hkey. pose proof (truthy_some key Hne) as Ht.
    destruct H as [[e [Hl ->]] | [page [Hl [[Hin ->] | [Hin [[e [Hs ->]] | [png [Hs ->]]]]]]]];
      rewrite Hl.
    + apply linear_sequence_intro with (new := [models_list (openai.Build_OpenAI key)]);
        cbn [fst snd calls]; try reflexivity; try discriminate.
      * shape_one.
      * congruence.
      * intros _. do 2 eexists. split; reflexivity.
      * no_generate.
    + apply linear_sequence_intro with (new := [models_list (openai.Build_OpenAI key)]);
        cbn [fst snd calls]; try reflexivity; try discriminate.
      * shape_one.
      * congruence.
      * intros _. do 2 eexists. split; reflexivity.
      * no_generate.
    + apply linear_sequence_intro with (new := [models_list (openai.Build_OpenAI key)]);
        cbn [fst snd calls]; try reflexivity; try discriminate.
      * shape_one.
      * congruence.
      * intros _. do 2 eexists. split; reflexivity.
      * no_generate.
    + apply linear_sequence_intro
        with (new := [models_list (openai.Build_OpenAI key);
                      chat_completions_create (openai.Build_OpenAI key)
                        (openai_request prompt model max_tokens_arg png)]);
        cbn [fst snd calls]; try reflexivity.
      * shape_two.
      * congruence.
      * intros _. do 2 eexists. split; reflexivity.
      * intros g _ _. eexists. split; [reflexivity | assumption].
      * intros v _. do 2 eexists. repeat split; reflexivity.
Qed.

Lemma gemini_linear pil_image prompt model st :
  linear_sequence st
    (get_gemini_output vendor pil_image prompt model st)
    (Py.get (environ st) "GOOGLE_API_KEY") (gemini_catalog vendor st) model.
Proof.
  pose proof (gemini_cases pil_image prompt model st) as H.
  cbv zeta in H. unfold gemini_catalog.
  destruct H as [[Ht ->] | [key [Hkey [Hne H]]]].
  - apply linear_sequence_intro with (new := []); cbn [fst snd].
    + now rewrite app_nil_r.
    + shape_nil.
    + reflexivity.
    + congruence.
    + no_generate.
    + discriminate.
  - rewrite Hkey. pose proof (truthy_some key Hne) as Ht.
    destruct H as [[e [Hl ->]] | [models [Hl [[Hin ->] | [Hin ->]]]]]; rewrite Hl.
    + apply linear_sequence_intro
        with (new := [list_models (Some (genai.Build_Config key "rest"))]);
        cbn [fst snd calls]; try reflexivity; try discriminate.
      * shape_one.
      * congruence.
      * intros _. do 2 eexists. split; reflexivity.
      * no_generate.
    + apply linear_sequence_intro
        with (new := [list_models (Some (genai.Build_Config key "rest"))]);
        cbn [fst snd calls]; try reflexivity; try discriminate.
      * shape_one.
      * congruence.
      * intros _. do 2 eexists. split; reflexivity.
      * no_generate.
    + apply linear_sequence_intro
        with (new := [list_models (Some (genai.Build_Config key "rest"));
                      generate_content (Some (genai.Build_Config key "rest"))
                        (genai.Build_GenerativeModel model) prompt pil_image]);
        cbn [fst snd calls]; try reflexivity.
      * shape_two.
      * congruence.
      * intros _. do 2 eexists. split; reflexivity.
      * intros g _ _. eexists. split; [reflexivity | assumption].
      * intros v _. do 2 eexists. repeat split; reflexivity.
Qed.

(** C9, as the code has it.  Every invocation of either query is one
    linear sequence: the credential is checked before anything is sent,
    the catalog is fetched next (on every invocation, against the
    provider's answer at that moment, with nothing kept from earlier
    calls), the model is checked against it before the generate-content
    call, and an invocation that returns has made exactly two calls into
    the provider's library, the model-list call and then the
    generate-content call.  How many network requests the library sends
    for them is not settled here. *)
Theorem query_is_linear_sequence pil_image prompt model max_tokens_arg st :
  linear_sequence st
    (get_openai_output vendor pil_image prompt model max_tokens_arg st)
    (Py.get (environ st) "OPENAI_API_KEY") (openai_catalog vendor st) model
  /\
  linear_sequence st
    (get_gemini_output vendor pil_image prompt model st)
    (Py.get (environ st) "GOOGLE_API_KEY") (gemini_catalog vendor st) model.
Proof. split; [apply openai_linear | apply gemini_linear]. Qed.

(** Behind the two calls of a returning invocation of
    [get_gemini_output] are one request for each page of the listing the
    provider serves, and one for the generation. *)
Lemma gemini_requests_of_returning_call pil_image prompt model st (l : Listing) v :
  fst (get_gemini_output vendor pil_image prompt model st) = Return v ->
  gemini_requests l
    (new_calls st (snd (get_gemini_output vendor pil_image prompt model st)))
  = S (listing_requests l).
Proof.
  intro Hv.
  pose proof (gemini_cases pil_image prompt model st) as H. cbv zeta in H.
  destruct H as [[Ht H] | [key [Hkey [Hne H]]]].
  { rewrite H in Hv. discriminate Hv. }
  destruct H as [[e0 [Hl H]] | [models [Hl [[Hin H] | [Hin H]]]]];
    rewrite H in Hv; cbn [fst] in Hv; try discriminate Hv.
  rewrite H. cbn [snd].
  rewrite (new_calls_app st _
             [list_models (Some (genai.Build_Config key "rest"));
              generate_content (Some (genai.Build_Config key "rest"))
                (genai.Build_GenerativeModel model) prompt pil_image])
    by reflexivity.
  unfold gemini_requests, list_sum. cbn [map fold_right]. lia.
Qed.

(** *** The request of Provider A *)

Lemma openai_request_sent pil_image prompt model max_tokens_arg st client request :
  In (chat_completions_create client request)
     (new_calls st (snd (get_openai_output vendor pil_image prompt model
                           max_tokens_arg st))) ->
  exists key png,
    Py.get (environ st) "OPENAI_API_KEY" = Some key /\
    client = openai.Build_OpenAI key /\
    Image_save vendor pil_image "PNG" = inr png /\
    request = openai_request prompt model max_tokens_arg png.
Proof.
  pose proof (openai_cases pil_image prompt model max_tokens_arg st) as H.
  cbv zeta in H.
  destruct H as [[Ht ->] | [key [Hkey [Hne H]]]].
  - rewrite (new_calls_app st _ []) by (cbn; now rewrite app_nil_r).
    intros [].
  - destruct H as [[e [Hl ->]] | [page [Hl [[Hin ->] | [Hin [[e [Hs ->]] | [png [Hs ->]]]]]]]];
      cbn [snd];
      try (rewrite (new_calls_app st _ [models_list (openai.Build_OpenAI key)])
             by reflexivity;
           intros [Heq | []]; discriminate Heq).
    rewrite (new_calls_app st _
               [models_list (openai.Build_OpenAI key);
                chat_completions_create (openai.Build_OpenAI key)
                  (openai_request prompt model max_tokens_arg png)])
      by reflexivity.
    intros [Heq | [Heq | []]]; [discriminate Heq|].
    inversion Heq; subst. exists key, png. repeat split; assumption.
Qed.

(** C6.  Whenever [get_openai_output] reaches the generate step, the
    request it submits has a single message, of role [user], whose
    content is the text part with the prompt followed by an image part
    whose URL is a [data:] URI carrying the base64 text of the PNG bytes
    of the bitmap; it carries the max-output-token count given by the
    caller, and 300 when the caller gives none. *)
Theorem openai_request_shape pil_image prompt model max_tokens_arg st client request :
  In (chat_completions_create client request)
     (new_calls st (snd (get_openai_output vendor pil_image prompt model
                           max_tokens_arg st))) ->
  exists png,
    Image_save vendor pil_image "PNG" = inr png /\
    openai.model request = model /\
    openai.messages request
    = [openai.Build_Message "user"
         [openai.text_part prompt;
          openai.image_url_part
            ("data:image/jpeg;base64," ++ decode_utf8 (Base64.b64encode png))]] /\
    openai.max_tokens request
    = match max_tokens_arg with Some n => n | None => 300%Z end.
Proof.
  intro H. apply openai_request_sent in H.
  destruct H as [key [png [_ [_ [Hs ->]]]]].
  exists png. repeat split. assumption.
Qed.

Lemma declared_mime_jpeg (payload : string) :
  declared_mime ("data:image/jpeg;base64," ++ payload) = Some "image/jpeg".
Proof. reflexivity. Qed.

Lemma after_comma_payload (payload : string) :
  after_comma ("data:image/jpeg;base64," ++ payload) = Some payload.
Proof. reflexivity. Qed.

(** C10.  Whenever [get_openai_output] reaches the generate step, the
    URL of the image part is a [data:] URI that declares the media type
    [image/jpeg], while its payload is the base64 text of the bytes the
    bitmap was saved to with format [PNG], whose media type is
    [image/png]: the declared type differs from that of the encoding. *)
Theorem openai_data_uri_declares_jpeg_for_png
    pil_image prompt model max_tokens_arg st client request :
  In (chat_completions_create client request)
     (new_calls st (snd (get_openai_output vendor pil_image prompt model
                           max_tokens_arg st))) ->
  exists png url,
    Image_save vendor pil_image "PNG" = inr png /\
    openai.messages request
    = [openai.Build_Message "user"
         [openai.text_part prompt; openai.image_url_part url]] /\
    declared_mime url = Some "image/jpeg" /\
    after_comma url = Some (decode_utf8 (Base64.b64encode png)) /\
    declared_mime url <> Image_MIME "PNG".
Proof.
  intro H. apply openai_request_sent in H.
  destruct H as [key [png [_ [_ [Hs ->]]]]].
  exists png. eexists. split; [assumption|]. split; [reflexivity|].
  rewrite declared_mime_jpeg, after_comma_payload.
  repeat split. discriminate.
Qed.

(** *** State shared between invocations *)

(** [get_openai_output] never looks at the configuration of
    google.generativeai and hands it on untouched. *)
Lemma openai_ignores_config pil_image prompt model max_tokens_arg st config :
  get_openai_output vendor pil_image prompt model max_tokens_arg
    (Build_State (environ st) config (calls st))
  = (fst (get_openai_output vendor pil_image prompt model max_tokens_arg st),
     Build_State (environ st) config
       (calls (snd (get_openai_output vendor pil_image prompt model
                      max_tokens_arg st)))).
Proof.
  run. norm.
  destruct (Py.get (environ st) "OPENAI_API_KEY") as [key|]; [|reflexivity].
  destruct (Py.truthy (Some key)); [|reflexivity]. norm.
  destruct (openai_models_list vendor (calls st) _) as [e|page]; norm.
  { rewrite !handlers_eq. reflexivity. }
  destruct (Py.contains model _); norm; [|reflexivity].
  rewrite !pil2base64_eq.
  destruct (Image_save vendor pil_image "PNG") as [e|png]; norm.
  { rewrite !handlers_eq. reflexivity. }
  destruct (openai_chat_completions_create vendor _ _ _) as [e|response]; norm.
  { rewrite !handlers_eq. reflexivity. }
  destruct (Py.index (openai.choices response) 0) as [e|choice]; norm.
  { rewrite !handlers_eq. reflexivity. }
  reflexivity.
Qed.

(** [get_gemini_output] overwrites the configuration before it uses it:
    what was configured before has no influence on the result, nor on the
    calls. *)
Lemma gemini_ignores_config pil_image prompt model st config :
  let out := get_gemini_output vendor pil_image prompt model st in
  let out' := get_gemini_output vendor pil_image prompt model
                (Build_State (environ st) config (calls st)) in
  fst out' = fst out /\ calls (snd out') = calls (snd out).
Proof.
  cbv zeta. run. norm.
  destruct (Py.get (environ st) "GOOGLE_API_KEY") as [key|]; [|split; reflexivity].
  destruct (Py.truthy (Some key)); [|split; reflexivity]. norm.
  destruct (genai_list_models vendor (calls st) _) as [e|models]; norm.
  { rewrite !handlers_eq. split; reflexivity. }
  destruct (Py.contains model _); norm; [|split; reflexivity].
  destruct (genai_generate_content vendor _ _ _ _ _) as [e|response]; norm.
  { rewrite !handlers_eq. split; reflexivity. }
  destruct (genai.text response) as [e|output]; norm.
  { rewrite !handlers_eq. split; reflexivity. }
  split; reflexivity.
Qed.

Lemma gemini_globals pil_image prompt model st :
  let out := get_gemini_output vendor pil_image prompt model st in
  environ (snd out) = environ st /\
  genai_config (snd out)
  = if Py.truthy (Py.get (environ st) "GOOGLE_API_KEY")
    then match Py.get (environ st) "GOOGLE_API_KEY" with
         | Some key => Some (genai.Build_Config key "rest")
         | None => genai_config st
         end
    else genai_config st.
Proof.
  pose proof (gemini_cases pil_image prompt model st) as H. cbv zeta in *.
  destruct H as [[Ht ->] | [key [Hkey [Hne H]]]].
  - rewrite Ht. split; reflexivity.
  - rewrite Hkey, (truthy_some key Hne).
    destruct H as [[e [Hl ->]] | [models [Hl [[Hin ->] | [Hin ->]]]]];
      split; reflexivity.
Qed.

(** C7, as the code has it.  Neither query reads state left by an
    earlier invocation, and neither changes the environment.
    [get_openai_output] builds its own client and leaves the
    process-global state as it was.  [get_gemini_output] builds no client:
    when the credential is present it overwrites the module-level
    configuration of google.generativeai with that credential and the
    transport [rest], and that configuration stays after the call,
    whether it returns or raises. *)
Theorem query_global_state pil_image prompt model max_tokens_arg st :
  let openai_out := get_openai_output vendor pil_image prompt model max_tokens_arg st in
  let gemini_out := get_gemini_output vendor pil_image prompt model st in
  globals (snd openai_out) = globals st /\
  environ (snd gemini_out) = environ st /\
  genai_config (snd gemini_out)
  = (if Py.truthy (Py.get (environ st) "GOOGLE_API_KEY")
     then match Py.get (environ st) "GOOGLE_API_KEY" with
          | Some key => Some (genai.Build_Config key "rest")
          | None => genai_config st
          end
     else genai_config st) /\
  forall config,
    let st' := Build_State (environ st) config (calls st) in
    let openai_out' :=
      get_openai_output vendor pil_image prompt model max_tokens_arg st' in
    let gemini_out' := get_gemini_output vendor pil_image prompt model st' in
    fst openai_out' = fst openai_out /\
    calls (snd openai_out') = calls (snd openai_out) /\
    fst gemini_out' = fst gemini_out /\
    calls (snd gemini_out') = calls (snd gemini_out).
Proof.
  cbv zeta. split; [|split; [|split]].
  - pose proof (openai_ignores_config pil_image prompt model max_tokens_arg st
                  (genai_config st)) as H.
    destruct st as [env cfg log]. cbn [environ genai_config calls] in H.
    rewrite H at 1. reflexivity.
  - apply gemini_globals.
  - apply gemini_globals.
  - intro config. rewrite openai_ignores_config. cbn [fst snd calls].
    split; [reflexivity|]. split; [reflexivity|].
    apply gemini_ignores_config.
Qed.

(** *** Model validation *)

Lemma openai_unsupported_model pil_image prompt model max_tokens_arg st key page :
  Py.get (environ st) "OPENAI_API_KEY" = Some key ->
  key <> EmptyString ->
  openai_models_list vendor (calls st) (openai.Build_OpenAI key) = inr page ->
  Py.contains model (map openai.id (openai.data page)) = false ->
  get_openai_output vendor pil_image prompt model max_tokens_arg st
  = (Raise (Py.LookupError
       ("Model '" ++ model ++ "' is not supported. Available models: "
        ++ Py.repr_list (map openai.id (openai.data page)))),
     Build_State (environ st) (genai_config st)
       (calls st ++ [models_list (openai.Build_OpenAI key)])).
Proof.
  intros Hkey Hne Hlist Hin.
  run. rewrite Hkey, (truthy_some key Hne). norm.
  rewrite Hlist. norm. rewrite Hin. norm. reflexivity.
Qed.

Lemma gemini_unsupported_model pil_image prompt model st key models :
  Py.get (environ st) "GOOGLE_API_KEY" = Some key ->
  key <> EmptyString ->
  genai_list_models vendor (calls st) (Some (genai.Build_Config key "rest"))
  = inr models ->
  Py.contains model (map genai.name models) = false ->
  get_gemini_output vendor pil_image prompt model st
  = (Raise (Py.LookupError
       ("Model '" ++ model ++ "' is not supported. Available models: "
        ++ Py.repr_list (map genai.name models))),
     Build_State (environ st) (Some (genai.Build_Config key "rest"))
       (calls st ++ [list_models (Some (genai.Build_Config key "rest"))])).
Proof.
  intros Hkey Hne Hlist Hin.
  run. rewrite Hkey, (truthy_some key Hne). norm.
  rewrite Hlist. norm. rewrite Hin. norm. reflexivity.
Qed.

(** The message of the unsupported-model error tells the catalog it was
    built from. *)
Lemma not_supported_catalog (model : string) (ids ids' : list string) :
  not_supported model ids = not_supported model ids' -> ids = ids'.
Proof.
  unfold not_supported, Py.LookupError. intro H.
  apply (f_equal Py.exc_str) in H. cbn [Py.exc_str] in H.
  apply (ReprFacts.append_inj_l "Model '") in H.
  apply (ReprFacts.append_inj_l model) in H.
  apply (ReprFacts.append_inj_l "' is not supported. Available models: ") in H.
  now apply ReprFacts.repr_list_inj.
Qed.

(** *** Failures of the generate-content call *)

Lemma reraised_wraps (msg : string) (e : Py.exn) :
  Py.isinstance e "LookupError" = false ->
  Py.isinstance e "Exception" = true ->
  reraised msg e = Py.RuntimeError (msg ++ Py.exc_str e).
Proof. intros H1 H2. unfold reraised. now rewrite H1, H2. Qed.

Lemma reraised_lookup (msg : string) (e : Py.exn) :
  Py.isinstance e "LookupError" = true -> reraised msg e = e.
Proof. intros H. unfold reraised. now rewrite H. Qed.

(** A failure of [client.chat.completions.create] leaves
    [get_openai_output] through the [except] clauses. *)
Lemma openai_generate_fails pil_image prompt model max_tokens_arg st key page png e :
  Py.get (environ st) "OPENAI_API_KEY" = Some key ->
  key <> EmptyString ->
  openai_models_list vendor (calls st) (openai.Build_OpenAI key) = inr page ->
  Py.contains model (map openai.id (openai.data page)) = true ->
  Image_save vendor pil_image "PNG" = inr png ->
  openai_chat_completions_create vendor
    (calls st ++ [models_list (openai.Build_OpenAI key)])
    (openai.Build_OpenAI key) (openai_request prompt model max_tokens_arg png)
  = inl e ->
  fst (get_openai_output vendor pil_image prompt model max_tokens_arg st)
  = Raise (reraised "Failed to generate OpenAI output: " e).
Proof.
  intros Hkey Hne Hlist Hin Hsave Hcreate.
  pose proof (openai_cases pil_image prompt model max_tokens_arg st) as H.
  cbv zeta in H.
  destruct H as [[Ht _] | [key' [Hkey' [_ H]]]].
  { rewrite Hkey, (truthy_some key Hne) in Ht. discriminate. }
  assert (key' = key) by congruence. subst key'.
  destruct H as [[e' [Hl _]] | [page' [Hl [[Hin' _] | [_ [[e' [Hs _]] | [png' [Hs H]]]]]]]];
    try congruence.
  assert (png' = png) by congruence. subst png'.
  cbn [calls] in H. rewrite Hcreate in H. rewrite H. reflexivity.
Qed.

(** A failure of [generate_content], or of the [text] accessor of its
    reply, leaves [get_gemini_output] through the [except] clauses. *)
Lemma gemini_generate_fails pil_image prompt model st key models e :
  Py.get (environ st) "GOOGLE_API_KEY" = Some key ->
  key <> EmptyString ->
  genai_list_models vendor (calls st) (Some (genai.Build_Config key "rest"))
  = inr models ->
  Py.contains model (map genai.name models) = true ->
  (genai_generate_content vendor
     (calls st ++ [list_models (Some (genai.Build_Config key "rest"))])
     (Some (genai.Build_Config key "rest"))
     (genai.Build_GenerativeModel model) prompt pil_image = inl e
   \/
   exists response,
     genai_generate_content vendor
       (calls st ++ [list_models (Some (genai.Build_Config key "rest"))])
       (Some (genai.Build_Config key "rest"))
       (genai.Build_GenerativeModel model) prompt pil_image = inr response /\
     genai.text response = inl e) ->
  fst (get_gemini_output vendor pil_image prompt model st)
  = Raise (reraised "Failed to generate Gemini output: " e).
Proof.
  intros Hkey Hne Hlist Hin Hgen.
  pose proof (gemini_cases pil_image prompt model st) as H.
  cbv zeta in H.
  destruct H as [[Ht _] | [key' [Hkey' [_ H]]]].
  { rewrite Hkey, (truthy_some key Hne) in Ht. discriminate. }
  assert (key' = key) by congruence. subst key'.
  destruct H as [[e' [Hl _]] | [models' [Hl [[Hin' _] | [_ H]]]]]; try congruence.
  cbn [calls] in H. rewrite H.
  destruct Hgen as [Hgen | [response [Hgen Htext]]]; rewrite Hgen; cbn [fst];
    [|rewrite Htext]; reflexivity.
Qed.

(** *** Round trip of the image encoder *)

Section RoundTrip.

(** [Image.open] on PNG bytes. *)
Variable Image_open : list byte -> option Image.

Lemma decode_image_encoded (png : list byte) :
  decode_image Image_open (decode_utf8 (Base64.b64encode png)) = Image_open png.
Proof.
  unfold decode_image, encode_utf8, decode_utf8.
  rewrite list_byte_of_string_of_list_byte, Base64Facts.decode_b64encode.
  reflexivity.
Qed.

(** C5, as the code has it.  For every bitmap that can be saved as
    PNG, the encoder returns a text whose base64 decoding is exactly the
    saved bytes; opening it as an image therefore gives what opening the
    saved bytes gives, and the bitmap read back is the one PIL reads from
    its own PNG of the bitmap.  Nothing is assumed of the PNG codec. *)
Theorem pil2base64_decodes_to_saved_bytes pil_image st png :
  Image_save vendor pil_image "PNG" = inr png ->
  exists text,
    pil2base64 vendor pil_image st = (Return text, st) /\
    Base64.decode (encode_utf8 text) = Some png /\
    decode_image Image_open text = Image_open png /\
    read_back vendor Image_open pil_image st = Image_open png.
Proof.
  intro Hsave.
  exists (decode_utf8 (Base64.b64encode png)).
  split; [now apply pil2base64_ok|]. split; [|split].
  - unfold encode_utf8, decode_utf8.
    rewrite list_byte_of_string_of_list_byte. apply Base64Facts.decode_b64encode.
  - apply decode_image_encoded.
  - unfold read_back. rewrite (pil2base64_ok _ _ _ Hsave). cbn [fst].
    apply decode_image_encoded.
Qed.

End RoundTrip.

(** *** Further behaviour of the queries *)

(** X1.  With a credential and a fetched catalog that lacks the model,
    either query raises the [LookupError] of line 61 (131) whose message
    quotes the model and ends with the [repr] of the catalog, after the
    model-list call alone: nothing is generated, and the bitmap plays no
    part, serializable or not. *)
Theorem unsupported_model_stops_before_generate pil_image prompt model st :
  (forall max_tokens_arg key page,
     Py.get (environ st) "OPENAI_API_KEY" = Some key ->
     key <> EmptyString ->
     openai_models_list vendor (calls st) (openai.Build_OpenAI key) = inr page ->
     Py.contains model (map openai.id (openai.data page)) = false ->
     let out := get_openai_output vendor pil_image prompt model max_tokens_arg st in
     fst out
     = Raise (Py.LookupError
         ("Model '" ++ model ++ "' is not supported. Available models: "
          ++ Py.repr_list (map openai.id (openai.data page)))) /\
     new_calls st (snd out) = [models_list (openai.Build_OpenAI key)])
  /\
  (forall key models,
     Py.get (environ st) "GOOGLE_API_KEY" = Some key ->
     key <> EmptyString ->
     genai_list_models vendor (calls st) (Some (genai.Build_Config key "rest"))
     = inr models ->
     Py.contains model (map genai.name models) = false ->
     let out := get_gemini_output vendor pil_image prompt model st in
     fst out
     = Raise (Py.LookupError
         ("Model '" ++ model ++ "' is not supported. Available models: "
          ++ Py.repr_list (map genai.name models))) /\
     new_calls st (snd out) = [list_models (Some (genai.Build_Config key "rest"))]).
Proof.
  split.
  - intros max_tokens_arg key page Hkey Hne Hlist Hin out. subst out.
    rewrite (openai_unsupported_model _ _ _ _ _ _ _ Hkey Hne Hlist Hin).
    split; [reflexivity|]. now apply new_calls_app.
  - intros key models Hkey Hne Hlist Hin out. subst out.
    rewrite (gemini_unsupported_model _ _ _ _ _ _ Hkey Hne Hlist Hin).
    split; [reflexivity|]. now apply new_calls_app.
Qed.

(** X2.  The unsupported-model error tells its catalog: two catalogs that
    give the same error for a model are the same list. *)
Theorem unsupported_model_error_determines_catalog
    (model : string) (ids ids' : list string) :
  not_supported model ids = not_supported model ids' -> ids = ids'.
Proof. apply not_supported_catalog. Qed.

Lemma openai_list_fails pil_image prompt model max_tokens_arg st key e :
  Py.get (environ st) "OPENAI_API_KEY" = Some key ->
  key <> EmptyString ->
  openai_models_list vendor (calls st) (openai.Build_OpenAI key) = inl e ->
  get_openai_output vendor pil_image prompt model max_tokens_arg st
  = (Raise (reraised "Failed to generate OpenAI output: " e),
     Build_State (environ st) (genai_config st)
       (calls st ++ [models_list (openai.Build_OpenAI key)])).
Proof.
  intros Hkey Hne Hlist.
  run. rewrite Hkey, (truthy_some key Hne). norm.
  rewrite Hlist. norm. apply handlers_eq.
Qed.

Lemma gemini_list_fails pil_image prompt model st key e :
  Py.get (environ st) "GOOGLE_API_KEY" = Some key ->
  key <> EmptyString ->
  genai_list_models vendor (calls st) (Some (genai.Build_Config key "rest")) = inl e ->
  get_gemini_output vendor pil_image prompt model st
  = (Raise (reraised "Failed to generate Gemini output: " e),
     Build_State (environ st) (Some (genai.Build_Config key "rest"))
       (calls st ++ [list_models (Some (genai.Build_Config key "rest"))])).
Proof.
  intros Hkey Hne Hlist.
  run. rewrite Hkey, (truthy_some key Hne). norm.
  rewrite Hlist. norm. apply handlers_eq.
Qed.

(** X3.  When the model-list call itself fails with an exception that is
    not a [LookupError], either query raises a [RuntimeError] whose
    message is its own prefix followed by the message of the failure, and
    it has made that one call only. *)
Theorem catalog_fetch_failure_is_wrapped pil_image prompt model st e :
  Py.isinstance e "LookupError" = false ->
  Py.isinstance e "Exception" = true ->
  (forall max_tokens_arg key,
     Py.get (environ st) "OPENAI_API_KEY" = Some key ->
     key <> EmptyString ->
     openai_models_list vendor (calls st) (openai.Build_OpenAI key) = inl e ->
     let out := get_openai_output vendor pil_image prompt model max_tokens_arg st in
     fst out
     = Raise (Py.RuntimeError ("Failed to generate OpenAI output: " ++ Py.exc_str e)) /\
     new_calls st (snd out) = [models_list (openai.Build_OpenAI key)])
  /\
  (forall key,
     Py.get (environ st) "GOOGLE_API_KEY" = Some key ->
     key <> EmptyString ->
     genai_list_models vendor (calls st) (Some (genai.Build_Config key "rest"))
     = inl e ->
     let out := get_gemini_output vendor pil_image prompt model st in
     fst out
     = Raise (Py.RuntimeError ("Failed to generate Gemini output: " ++ Py.exc_str e)) /\
     new_calls st (snd out) = [list_models (Some (genai.Build_Config key "rest"))]).
Proof.
  intros Hl He. split.
  - intros max_tokens_arg key Hkey Hne Hlist out. subst out.
    rewrite (openai_list_fails _ _ _ _ _ _ _ Hkey Hne Hlist).
    rewrite (reraised_wraps _ _ Hl He).
    split; [reflexivity|]. now apply new_calls_app.
  - intros key Hkey Hne Hlist out. subst out.
    rewrite (gemini_list_fails _ _ _ _ _ _ Hkey Hne Hlist).
    rewrite (reraised_wraps _ _ Hl He).
    split; [reflexivity|]. now apply new_calls_app.
Qed.

(** X4.  When the generate-content call fails with an exception that is
    not a [LookupError] (for Provider B also when reading [text] off the
    reply fails so), the query raises a [RuntimeError] whose message is
    its own prefix followed by the message of the failure. *)
Theorem generate_failure_is_wrapped pil_image prompt model st e :
  Py.isinstance e "LookupError" = false ->
  Py.isinstance e "Exception" = true ->
  (forall max_tokens_arg key page png,
     Py.get (environ st) "OPENAI_API_KEY" = Some key ->
     key <> EmptyString ->
     openai_models_list vendor (calls st) (openai.Build_OpenAI key) = inr page ->
     Py.contains model (map openai.id (openai.data page)) = true ->
     Image_save vendor pil_image "PNG" = inr png ->
     openai_chat_completions_create vendor
       (calls st ++ [models_list (openai.Build_OpenAI key)])
       (openai.Build_OpenAI key) (openai_request prompt model max_tokens_arg png)
     = inl e ->
     fst (get_openai_output vendor pil_image prompt model max_tokens_arg st)
     = Raise (Py.RuntimeError ("Failed to generate OpenAI output: " ++ Py.exc_str e)))
  /\
  (forall key models,
     Py.get (environ st) "GOOGLE_API_KEY" = Some key ->
     key <> EmptyString ->
     genai_list_models vendor (calls st) (Some (genai.Build_Config key "rest"))
     = inr models ->
     Py.contains model (map genai.name models) = true ->
     (genai_generate_content vendor
        (calls st ++ [list_models (Some (genai.Build_Config key "rest"))])
        (Some (genai.Build_Config key "rest"))
        (genai.Build_GenerativeModel model) prompt pil_image = inl e
      \/
      exists response,
        genai_generate_content vendor
          (calls st ++ [list_models (Some (genai.Build_Config key "rest"))])
          (Some (genai.Build_Config key "rest"))
          (genai.Build_GenerativeModel model) prompt pil_image = inr response /\
        genai.text response = inl e) ->
     fst (get_gemini_output vendor pil_image prompt model st)
     = Raise (Py.RuntimeError ("Failed to generate Gemini output: " ++ Py.exc_str e))).
Proof.
  intros Hl He. split.
  - intros max_tokens_arg key page png Hkey Hne Hlist Hin Hsave Hcreate.
    rewrite (openai_generate_fails _ _ _ _ _ _ _ _ _ Hkey Hne Hlist Hin Hsave Hcreate).
    now rewrite (reraised_wraps _ _ Hl He).
  - intros key models Hkey Hne Hlist Hin Hgen.
    rewrite (gemini_generate_fails _ _ _ _ _ _ _ Hkey Hne Hlist Hin Hgen).
    now rewrite (reraised_wraps _ _ Hl He).
Qed.

(** X5.  A credential that is set to the empty string counts as missing:
    either query raises its [EnvironmentError] and leaves the state, the
    log of calls included, as it was. *)
Theorem empty_credential_is_missing pil_image prompt model max_tokens_arg st :
  (Py.get (environ st) "OPENAI_API_KEY" = Some EmptyString ->
   get_openai_output vendor pil_image prompt model max_tokens_arg st
   = (Raise (Py.EnvironmentError
        "OpenAI API key is missing. Set 'OPENAI_API_KEY' in environment variables."),
      st))
  /\
  (Py.get (environ st) "GOOGLE_API_KEY" = Some EmptyString ->
   get_gemini_output vendor pil_image prompt model st
   = (Raise (Py.EnvironmentError
        "Google API key is missing. Set 'GOOGLE_API_KEY' in environment variables."),
      st)).
Proof.
  split; intro H.
  - apply openai_missing_key. rewrite H. reflexivity.
  - apply gemini_missing_key. rewrite H. reflexivity.
Qed.

(** X6.  When the model is in the catalog and the bitmap cannot be saved
    as PNG, [get_openai_output] raises a [RuntimeError] that carries both
    prefixes, its own and the encoder's, before the message of the
    failure (whatever the class of that failure, a [LookupError]
    included), and no generate-content call is made. *)
Theorem encoder_failure_stops_openai_query
    pil_image prompt model max_tokens_arg st key page e :
  Py.get (environ st) "OPENAI_API_KEY" = Some key ->
  key <> EmptyString ->
  openai_models_list vendor (calls st) (openai.Build_OpenAI key) = inr page ->
  Py.contains model (map openai.id (openai.data page)) = true ->
  Image_save vendor pil_image "PNG" = inl e ->
  Py.isinstance e "Exception" = true ->
  let out := get_openai_output vendor pil_image prompt model max_tokens_arg st in
  fst out
  = Raise (Py.RuntimeError
      ("Failed to generate OpenAI output: "
       ++ "Failed to convert image to base64: " ++ Py.exc_str e)) /\
  new_calls st (snd out) = [models_list (openai.Build_OpenAI key)].
Proof.
  intros Hkey Hne Hlist Hin Hsave He out. subst out.
  run. rewrite Hkey, (truthy_some key Hne). norm.
  rewrite Hlist. norm. rewrite Hin. norm.
  rewrite pil2base64_eq, Hsave. norm.
  rewrite handlers_eq. unfold encoding_error. rewrite He.
  cbn [fst snd]. split; [reflexivity|]. now apply new_calls_app.
Qed.

(** X8.  Every outbound call of [get_openai_output] goes through the
    client built from the credential this invocation read from the
    environment, and that credential is not empty. *)
Theorem openai_calls_use_own_client
    pil_image prompt model max_tokens_arg st (c : Call Image) :
  In c (new_calls st (snd (get_openai_output vendor pil_image prompt model
                             max_tokens_arg st))) ->
  exists key,
    Py.get (environ st) "OPENAI_API_KEY" = Some key /\
    key <> EmptyString /\
    (c = models_list (openai.Build_OpenAI key) \/
     exists request, c = chat_completions_create (openai.Build_OpenAI key) request).
Proof.
  pose proof (openai_cases pil_image prompt model max_tokens_arg st) as H.
  cbv zeta in H.
  destruct H as [[Ht ->] | [key [Hkey [Hne H]]]].
  - rewrite (new_calls_app st _ []) by (cbn; now rewrite app_nil_r).
    intros [].
  - destruct H as [[e [Hl ->]] | [page [Hl [[Hin ->] | [Hin [[e [Hs ->]] | [png [Hs ->]]]]]]]];
      intro Hc; (exists key); (split; [assumption|]); (split; [assumption|]);
      cbn [snd] in Hc;
      try (rewrite (new_calls_app st _ [models_list (openai.Build_OpenAI key)])
             in Hc by reflexivity;
           destruct Hc as [<- | []]; left; reflexivity).
    rewrite (new_calls_app st _
               [models_list (openai.Build_OpenAI key);
                chat_completions_create (openai.Build_OpenAI key)
                  (openai_request prompt model max_tokens_arg png)])
      in Hc by reflexivity.
    destruct Hc as [<- | [<- | []]]; [left; reflexivity | right; eexists; reflexivity].
Qed.

(** X9.  Every outbound call of [get_gemini_output] is made under the
    configuration this invocation has just set (the credential read from
    the environment, transport [rest]), and it is either the model-list
    call or the generate-content call for the requested model with the
    prompt and the bitmap itself, unencoded. *)
Theorem gemini_calls_use_own_configuration
    pil_image prompt model st (c : Call Image) :
  In c (new_calls st (snd (get_gemini_output vendor pil_image prompt model st))) ->
  exists key,
    Py.get (environ st) "GOOGLE_API_KEY" = Some key /\
    key <> EmptyString /\
    (c = list_models (Some (genai.Build_Config key "rest")) \/
     c = generate_content (Some (genai.Build_Config key "rest"))
           (genai.Build_GenerativeModel model) prompt pil_image).
Proof.
  pose proof (gemini_cases pil_image prompt model st) as H.
  cbv zeta in H.
  destruct H as [[Ht ->] | [key [Hkey [Hne H]]]].
  - rewrite (new_calls_app st _ []) by (cbn; now rewrite app_nil_r).
    intros [].
  - destruct H as [[e [Hl ->]] | [models [Hl [[Hin ->] | [Hin ->]]]]];
      intro Hc; (exists key); (split; [assumption|]); (split; [assumption|]);
      cbn [snd] in Hc;
      try (rewrite (new_calls_app st _
                      [list_models (Some (genai.Build_Config key "rest"))])
             in Hc by reflexivity;
           destruct Hc as [<- | []]; left; reflexivity).
    rewrite (new_calls_app st _
               [list_models (Some (genai.Build_Config key "rest"));
                generate_content (Some (genai.Build_Config key "rest"))
                  (genai.Build_GenerativeModel model) prompt pil_image])
      in Hc by reflexivity.
    destruct Hc as [<- | [<- | []]]; [left | right]; reflexivity.
Qed.

Lemma reraised_kinds (msg : string) (e : Py.exn) :
  Py.isinstance (reraised msg e) "LookupError" = true \/
  Py.isinstance (reraised msg e) "RuntimeError" = true \/
  Py.isinstance (reraised msg e) "Exception" = false.
Proof.
  unfold reraised.
  destruct (Py.isinstance e "LookupError") eqn:Hl; [left; assumption|].
  destruct (Py.isinstance e "Exception") eqn:He.
  - right. left. reflexivity.
  - right. right. assumption.
Qed.

(** X10.  The kinds of error a query can end with.  An exception that
    leaves a query is the [EnvironmentError] of the missing credential
    (and then the credential is missing or empty), or an instance of
    [LookupError], or an instance of [RuntimeError], or not an instance
    of [Exception] at all (such as an interrupt, which no clause
    catches). *)
Theorem query_error_kinds pil_image prompt model max_tokens_arg st e :
  (fst (get_openai_output vendor pil_image prompt model max_tokens_arg st) = Raise e ->
   (e = Py.EnvironmentError
          "OpenAI API key is missing. Set 'OPENAI_API_KEY' in environment variables." /\
    Py.truthy (Py.get (environ st) "OPENAI_API_KEY") = false) \/
   Py.isinstance e "LookupError" = true \/
   Py.isinstance e "RuntimeError" = true \/
   Py.isinstance e "Exception" = false)
  /\
  (fst (get_gemini_output vendor pil_image prompt model st) = Raise e ->
   (e = Py.EnvironmentError
          "Google API key is missing. Set 'GOOGLE_API_KEY' in environment variables." /\
    Py.truthy (Py.get (environ st) "GOOGLE_API_KEY") = false) \/
   Py.isinstance e "LookupError" = true \/
   Py.isinstance e "RuntimeError" = true \/
   Py.isinstance e "Exception" = false).
Proof.
  split; intro He.
  - pose proof (openai_cases pil_image prompt model max_tokens_arg st) as H.
    cbv zeta in H.
    destruct H as [[Ht H] | [key [Hkey [Hne H]]]].
    + rewrite H in He. inversion He. left. split; [reflexivity | assumption].
    + right.
      destruct H as [[e0 [Hl H]] | [page [Hl [[Hin H] | [Hin [[e0 [Hs H]] | [png [Hs H]]]]]]]];
        rewrite H in He; cbn [fst] in He.
      * inversion He. apply reraised_kinds.
      * inversion He. left. reflexivity.
      * inversion He. apply reraised_kinds.
      * destruct (openai_chat_completions_create vendor _ _ _) as [e0|response].
        { inversion He. apply reraised_kinds. }
        destruct (openai.choices response); inversion He. left. reflexivity.
  - pose proof (gemini_cases pil_image prompt model st) as H.
    cbv zeta in H.
    destruct H as [[Ht H] | [key [Hkey [Hne H]]]].
    + rewrite H in He. inversion He. left. split; [reflexivity | assumption].
    + right.
      destruct H as [[e0 [Hl H]] | [models [Hl [[Hin H] | [Hin H]]]]];
        rewrite H in He; cbn [fst] in He.
      * inversion He. apply reraised_kinds.
      * inversion He. left. reflexivity.
      * destruct (genai_generate_content vendor _ _ _ _ _) as [e0|response].
        { inversion He. apply reraised_kinds. }
        destruct (genai.text response); inversion He. apply reraised_kinds.
Qed.

(** X11.  The image of a submitted request can be read back: whenever
    [get_openai_output] reaches the generate step, base64-decoding what
    follows the comma of the image URL gives exactly the bytes the bitmap
    was saved to. *)
Theorem openai_url_payload_decodes_to_saved_bytes
    pil_image prompt model max_tokens_arg st client request :
  In (chat_completions_create client request)
     (new_calls st (snd (get_openai_output vendor pil_image prompt model
                           max_tokens_arg st))) ->
  exists png url payload,
    Image_save vendor pil_image "PNG" = inr png /\
    openai.messages request
    = [openai.Build_Message "user"
         [openai.text_part prompt; openai.image_url_part url]] /\
    after_comma url = Some payload /\
    Base64.decode (encode_utf8 payload) = Some png.
Proof.
  intro H. apply openai_request_sent in H.
  destruct H as [key [png [_ [_ [Hs ->]]]]].
  exists png. do 2 eexists. split; [assumption|]. split; [reflexivity|].
  split; [apply after_comma_payload|].
  unfold encode_utf8, decode_utf8.
  rewrite list_byte_of_string_of_list_byte. apply Base64Facts.decode_b64encode.
Qed.

Lemma b64encode_length (bs : list byte) :
  List.length (Base64.b64encode bs) = 4 * ((List.length bs + 2) / 3).
Proof.
  induction bs as [|a|a b|a b c rest IH] using Base64Facts.list_ind3;
    try reflexivity.
  cbn [Base64.b64encode List.length]. rewrite IH.
  replace (S (S (S (List.length rest))) + 2) with (List.length rest + 2 + 1 * 3) by lia.
  rewrite Nat.div_add by discriminate. lia.
Qed.

Lemma char_of_sextet_in_alphabet (n : N) :
  Base64.is_pad (Base64.char_of_sextet n) = true \/
  Base64.sextet_of_char (Base64.char_of_sextet n) <> None.
Proof.
  unfold Base64.char_of_sextet. generalize (N.to_nat n). intro k.
  do 64 (destruct k as [|k]; [right; discriminate|]). left. reflexivity.
Qed.

Lemma b64encode_alphabet (bs : list byte) :
  Forall (fun b => Base64.is_pad b = true \/ Base64.sextet_of_char b <> None)
         (Base64.b64encode bs).
Proof.
  induction bs as [|a|a b|a b c rest IH] using Base64Facts.list_ind3;
    cbn [Base64.b64encode];
    repeat first [ apply Forall_nil
                 | assumption
                 | apply Forall_cons;
                   [first [apply char_of_sextet_in_alphabet | left; reflexivity]|] ].
Qed.

Lemma string_of_list_byte_length (bs : list byte) :
  String.length (string_of_list_byte bs) = List.length bs.
Proof.
  unfold string_of_list_byte.
  induction bs as [|b bs IH]; cbn; [reflexivity | now rewrite IH].
Qed.

(** X12.  For a bitmap that saves to [n] bytes the encoder returns a
    text of [4 * ceil(n / 3)] characters, each a character of the base64
    alphabet or the padding sign. *)
Theorem pil2base64_text_shape pil_image st png :
  Image_save vendor pil_image "PNG" = inr png ->
  exists text,
    pil2base64 vendor pil_image st = (Return text, st) /\
    String.length text = 4 * ((List.length png + 2) / 3) /\
    Forall (fun b => Base64.is_pad b = true \/ Base64.sextet_of_char b <> None)
           (encode_utf8 text).
Proof.
  intro Hsave. exists (decode_utf8 (Base64.b64encode png)).
  split; [now apply pil2base64_ok|]. split.
  - unfold decode_utf8. now rewrite string_of_list_byte_length, b64encode_length.
  - unfold encode_utf8, decode_utf8. rewrite list_byte_of_string_of_list_byte.
    apply b64encode_alphabet.
Qed.

(** X13.  A query returns only after everything went well: a returned
    value means that the credential was set and not empty, the model was
    in the catalog fetched by this invocation, the bitmap was saved
    (Provider A), the generate-content call answered, and the value is the
    content of the first choice of that reply (Provider A) or its text
    (Provider B). *)
Theorem returned_value_comes_from_validated_reply pil_image prompt model st :
  (forall max_tokens_arg v,
     fst (get_openai_output vendor pil_image prompt model max_tokens_arg st) = Return v ->
     exists key page png response choice rest,
       Py.get (environ st) "OPENAI_API_KEY" = Some key /\
       key <> EmptyString /\
       openai_models_list vendor (calls st) (openai.Build_OpenAI key) = inr page /\
       Py.contains model (map openai.id (openai.data page)) = true /\
       Image_save vendor pil_image "PNG" = inr png /\
       openai_chat_completions_create vendor
         (calls st ++ [models_list (openai.Build_OpenAI key)])
         (openai.Build_OpenAI key) (openai_request prompt model max_tokens_arg png)
       = inr response /\
       openai.choices response = choice :: rest /\
       v = openai.message_content (openai.message choice))
  /\
  (forall v,
     fst (get_gemini_output vendor pil_image prompt model st) = Return v ->
     exists key models response,
       Py.get (environ st) "GOOGLE_API_KEY" = Some key /\
       key <> EmptyString /\
       genai_list_models vendor (calls st) (Some (genai.Build_Config key "rest"))
       = inr models /\
       Py.contains model (map genai.name models) = true /\
       genai_generate_content vendor
         (calls st ++ [list_models (Some (genai.Build_Config key "rest"))])
         (Some (genai.Build_Config key "rest"))
         (genai.Build_GenerativeModel model) prompt pil_image = inr response /\
       genai.text response = inr v).
Proof.
  split.
  - intros max_tokens_arg v Hv.
    pose proof (openai_cases pil_image prompt model max_tokens_arg st) as H.
    cbv zeta in H.
    destruct H as [[Ht H] | [key [Hkey [Hne H]]]].
    { rewrite H in Hv. discriminate Hv. }
    destruct H as [[e0 [Hl H]] | [page [Hl [[Hin H] | [Hin [[e0 [Hs H]] | [png [Hs H]]]]]]]];
      rewrite H in Hv; cbn [fst calls] in Hv; try discriminate Hv.
    destruct (openai_chat_completions_create vendor _ _ _) as [e0|response] eqn:Hc;
      [discriminate Hv|].
    destruct (openai.choices response) as [|choice rest] eqn:Hch; [discriminate Hv|].
    inversion Hv. exists key, page, png, response, choice, rest.
    repeat split; assumption.
  - intros v Hv.
    pose proof (gemini_cases pil_image prompt model st) as H.
    cbv zeta in H.
    destruct H as [[Ht H] | [key [Hkey [Hne H]]]].
    { rewrite H in Hv. discriminate Hv. }
    destruct H as [[e0 [Hl H]] | [models [Hl [[Hin H] | [Hin H]]]]];
      rewrite H in Hv; cbn [fst calls] in Hv; try discriminate Hv.
    destruct (genai_generate_content vendor _ _ _ _ _) as [e0|response] eqn:Hg;
      [discriminate Hv|].
    destruct (genai.text response) as [e0|output] eqn:Ht; [discriminate Hv|].
    inversion Hv. subst. exists key, models, response.
    repeat split; assumption.
Qed.

Lemma openai_environ pil_image prompt model max_tokens_arg st :
  environ (snd (get_openai_output vendor pil_image prompt model max_tokens_arg st))
  = environ st.
Proof.
  pose proof (openai_cases pil_image prompt model max_tokens_arg st) as H.
  cbv zeta in H.
  destruct H as [[Ht ->] | [key [Hkey [Hne H]]]]; [reflexivity|].
  destruct H as [[e [Hl ->]] | [page [Hl [[Hin ->] | [Hin [[e [Hs ->]] | [png [Hs ->]]]]]]]];
    reflexivity.
Qed.

Lemma generate_is_not_list (c : Call Image) :
  is_generate_call c = true -> is_list_call c = false.
Proof. destruct c; cbn; congruence. Qed.

Lemma linear_one_list_call {A : Type} st (out : result A * State Image)
    credential catalog model :
  linear_sequence st out credential catalog model ->
  Py.truthy credential = true ->
  calls (snd out) = (calls st ++ new_calls st (snd out))%list /\
  List.length (filter is_list_call (new_calls st (snd out))) = 1.
Proof.
  unfold linear_sequence. cbv zeta.
  intros [Hcalls [Hshape [_ [Hfetch _]]]] Ht.
  split; [assumption|].
  destruct (Hfetch Ht) as [l [rest [Hnew Hl]]].
  destruct Hshape as [Hnil | [[l' [Hone Hl']] | [l' [g [Htwo [Hl' Hg]]]]]].
  - rewrite Hnil in Hnew. discriminate Hnew.
  - rewrite Hone. cbn [filter]. rewrite Hl'. reflexivity.
  - rewrite Htwo. cbn [filter]. rewrite Hl', (generate_is_not_list g Hg). reflexivity.
Qed.

(** X14.  Two invocations in a row, with whatever arguments, each fetch
    the catalog once: when the credential is set, the calls of the second
    invocation follow those of the first in the log, and each invocation
    has made exactly one model-list call. *)
Theorem each_invocation_fetches_catalog_once
    pil_image prompt model max_tokens_arg pil_image' prompt' model' max_tokens_arg' st :
  (Py.truthy (Py.get (environ st) "OPENAI_API_KEY") = true ->
   let first := get_openai_output vendor pil_image prompt model max_tokens_arg st in
   let second := get_openai_output vendor pil_image' prompt' model' max_tokens_arg'
                   (snd first) in
   calls (snd second)
   = (calls st ++ new_calls st (snd first)
        ++ new_calls (snd first) (snd second))%list /\
   List.length (filter is_list_call (new_calls st (snd first))) = 1 /\
   List.length (filter is_list_call (new_calls (snd first) (snd second))) = 1)
  /\
  (Py.truthy (Py.get (environ st) "GOOGLE_API_KEY") = true ->
   let first := get_gemini_output vendor pil_image prompt model st in
   let second := get_gemini_output vendor pil_image' prompt' model' (snd first) in
   calls (snd second)
   = (calls st ++ new_calls st (snd first)
        ++ new_calls (snd first) (snd second))%list /\
   List.length (filter is_list_call (new_calls st (snd first))) = 1 /\
   List.length (filter is_list_call (new_calls (snd first) (snd second))) = 1).
Proof.
  split; intros Ht first second.
  - destruct (linear_one_list_call _ _ _ _ _
                (openai_linear pil_image prompt model max_tokens_arg st) Ht)
      as [Hc1 Hn1].
    assert (Ht' : Py.truthy (Py.get (environ (snd first)) "OPENAI_API_KEY") = true).
    { subst first. now rewrite openai_environ. }
    destruct (linear_one_list_call _ _ _ _ _
                (openai_linear pil_image' prompt' model' max_tokens_arg' (snd first)) Ht')
      as [Hc2 Hn2].
    fold first in Hc1, Hn1. fold second in Hc2, Hn2.
    split; [|split; assumption].
    rewrite Hc2, Hc1 at 1. now rewrite <- app_assoc.
  - destruct (linear_one_list_call _ _ _ _ _
                (gemini_linear pil_image prompt model st) Ht) as [Hc1 Hn1].
    assert (Ht' : Py.truthy (Py.get (environ (snd first)) "GOOGLE_API_KEY") = true).
    { subst first. now rewrite (proj1 (gemini_globals pil_image prompt model st)). }
    destruct (linear_one_list_call _ _ _ _ _
                (gemini_linear pil_image' prompt' model' (snd first)) Ht')
      as [Hc2 Hn2].
    fold first in Hc1, Hn1. fold second in Hc2, Hn2.
    split; [|split; assumption].
    rewrite Hc2, Hc1 at 1. now rewrite <- app_assoc.
Qed.

End Properties.

(** ** Scenarios *)

(** Scenario of the specification: catalog [m1, m2], model [m3]. *)
Example unsupported_model_scenario :
  fst (get_openai_output Stub.hello Stub.img "what is this?" "m3" None Stub.both_state)
  = Raise (Py.LookupError
      "Model 'm3' is not supported. Available models: ['m1', 'm2']")
  /\
  fst (get_gemini_output Stub.hello Stub.img "what is this?" "m3" Stub.both_state)
  = Raise (Py.LookupError
      "Model 'm3' is not supported. Available models: ['m1', 'm2']").
Proof. split; reflexivity. Qed.

(** Scenario of the specification: model [m1] in the catalog, reply [hello]. *)
Example hello_scenario :
  fst (get_openai_output Stub.hello Stub.img "what is this?" "m1" None Stub.both_state)
  = Return (Some "hello")
  /\
  fst (get_gemini_output Stub.hello Stub.img "what is this?" "m1" Stub.both_state)
  = Return "hello".
Proof. split; reflexivity. Qed.

(** An empty credential counts as a missing one. *)
Example empty_credential_scenario :
  get_openai_output Stub.hello Stub.img "what is this?" "m1" None
    (Stub.state (Stub.env "OPENAI_API_KEY" EmptyString))
  = (Raise (Py.EnvironmentError
       "OpenAI API key is missing. Set 'OPENAI_API_KEY' in environment variables."),
     Stub.state (Stub.env "OPENAI_API_KEY" EmptyString)).
Proof. reflexivity. Qed.

(** Two invocations in a row against a catalog that changes in between:
    the second one fetches the catalog again and is refused. *)
Example catalog_fetched_again :
  fst (get_openai_output Stub.hello_rotating Stub.img "what is this?" "m1" None
         Stub.both_state)
  = Return (Some "hello") /\
  fst (get_openai_output Stub.hello_rotating Stub.img "what is this?" "m1" None
         (snd (get_openai_output Stub.hello_rotating Stub.img "what is this?" "m1"
                 None Stub.both_state)))
  = Raise (Py.LookupError "Model 'm1' is not supported. Available models: ['m2']").
Proof. split; reflexivity. Qed.

(** C1.  A reply without choices makes [get_openai_output] leave with an
    [IndexError], which is an instance of [LookupError], the class of the
    unsupported-model error, although the requested model is in the
    fetched catalog: line 89 raises inside the [try], and the clause of
    line 92 lets every [LookupError] through. *)
Theorem lookup_error_although_model_supported :
  openai_catalog Stub.no_choices Stub.openai_state = Some ["m1"] /\
  Py.contains "m1" ["m1"] = true /\
  fst (get_openai_output Stub.no_choices Stub.img "what is this?" "m1" None
         Stub.openai_state)
  = Raise (Py.IndexError "list index out of range") /\
  Py.isinstance (Py.IndexError "list index out of range") "LookupError" = true.
Proof. repeat split; reflexivity. Qed.

(** C2.  A generate-content call that fails with a [KeyError] (an
    instance of [LookupError]) is not turned into a [RuntimeError]: both
    queries let it through as it is. *)
Theorem lookup_failure_of_transport_not_wrapped :
  fst (get_openai_output Stub.failing Stub.img "what is this?" "m1" None
         Stub.both_state)
  = Raise Stub.lookup_failure /\
  fst (get_gemini_output Stub.failing Stub.img "what is this?" "m1" Stub.both_state)
  = Raise Stub.lookup_failure /\
  Py.isinstance Stub.lookup_failure "RuntimeError" = false.
Proof. repeat split; reflexivity. Qed.

(** C7 as stated fails: a call of [get_gemini_output] leaves the
    module-level configuration of google.generativeai changed. *)
Lemma gemini_changes_global_state :
  globals (snd (get_gemini_output Stub.hello Stub.img "what is this?" "m1"
                  Stub.both_state))
  <> globals Stub.both_state.
Proof. vm_compute. discriminate. Qed.

(** C5 as stated fails: a bitmap whose pixel needs more than sixteen bits
    is saved without error, and what is read back from the encoder's
    text is another bitmap; a bitmap within the depth comes back as it
    was. *)
Lemma serializable_bitmap_read_back_differently :
  Image_save Stub.deep Stub.bright "PNG" = inr [x11; x70] /\
  fst (pil2base64 Stub.deep Stub.bright Stub.deep_state) = Return "EXA=" /\
  read_back Stub.deep Stub.open16 Stub.bright Stub.deep_state = Some [4464%N] /\
  read_back Stub.deep Stub.open16 Stub.bright Stub.deep_state <> Some Stub.bright /\
  read_back Stub.deep Stub.open16 Stub.dim Stub.deep_state = Some Stub.dim.
Proof.
  split; [reflexivity|]. split; [reflexivity|]. split; [reflexivity|].
  split; [|reflexivity]. vm_compute. discriminate.
Qed.

(** C9 as stated fails: against a provider that serves its catalog on
    two pages, an invocation of [get_gemini_output] that returns has made
    its two calls into the library, and these are three network requests,
    not two. *)
Lemma paged_catalog_takes_three_requests :
  fst (get_gemini_output Stub.paged Stub.img "what is this?" "m1" Stub.both_state)
  = Return "hello" /\
  map is_list_call
    (new_calls Stub.both_state
       (snd (get_gemini_output Stub.paged Stub.img "what is this?" "m1"
               Stub.both_state)))
  = [true; false] /\
  gemini_requests Stub.two_pages
    (new_calls Stub.both_state
       (snd (get_gemini_output Stub.paged Stub.img "what is this?" "m1"
               Stub.both_state)))
  = 3 /\
  gemini_requests Stub.two_pages
    (new_calls Stub.both_state
       (snd (get_gemini_output Stub.paged Stub.img "what is this?" "m1"
               Stub.both_state)))
  <> 2.
Proof.
  split; [reflexivity|]. split; [reflexivity|]. split; [reflexivity|].
  vm_compute. discriminate.
Qed.

(** ** The theorems at the stubbed vendors *)

Lemma missing_credential_raises_before_any_call_witness :
  (get_openai_output Stub.hello Stub.img "what is this?" "m1" None
     (Stub.state Stub.no_env)
   = (Raise (Py.EnvironmentError
        "OpenAI API key is missing. Set 'OPENAI_API_KEY' in environment variables."),
      Stub.state Stub.no_env))
  /\
  (get_gemini_output Stub.hello Stub.img "what is this?" "m1" (Stub.state Stub.no_env)
   = (Raise (Py.EnvironmentError
        "Google API key is missing. Set 'GOOGLE_API_KEY' in environment variables."),
      Stub.state Stub.no_env)).
Proof.
  destruct (missing_credential_raises_before_any_call Stub.hello Stub.img
              "what is this?" "m1" None (Stub.state Stub.no_env)) as [HA HB].
  split.
  - apply HA. reflexivity.
  - apply HB. reflexivity.
Defined.

Lemma pil2base64_spec_witness :
  pil2base64 Stub.hello [] Stub.both_state
  = (Raise (Py.RuntimeError
       "Failed to convert image to base64: cannot write empty image as PNG"),
     Stub.both_state)
  /\
  pil2base64 Stub.hello Stub.img Stub.both_state
  = (Return "UE5HOgECAwQF", Stub.both_state).
Proof.
  destruct (pil2base64_spec Stub.hello [] Stub.both_state) as [Hfail _].
  destruct (pil2base64_spec Stub.hello Stub.img Stub.both_state) as [_ Hok].
  split.
  - apply (Hfail (Py.ValueError "cannot write empty image as PNG")); reflexivity.
  - apply (Hok (Stub.signature ++ Stub.img)%list). reflexivity.
Defined.

Lemma query_returns_reply_text_witness :
  fst (get_openai_output Stub.hello Stub.img "what is this?" "m1" None Stub.both_state)
  = Return (Some "hello")
  /\
  fst (get_gemini_output Stub.hello Stub.img "what is this?" "m1" Stub.both_state)
  = Return "hello".
Proof.
  destruct (query_returns_reply_text Stub.hello Stub.img "what is this?" "m1"
              Stub.both_state) as [HA HB].
  split.
  - apply (HA None "sk-a"
             (openai.Build_SyncPage [openai.Build_Model "m1"; openai.Build_Model "m2"])
             (Stub.signature ++ Stub.img)%list (Stub.say (Some "hello"))
             (openai.Build_Choice (openai.Build_ChatCompletionMessage (Some "hello")))
             []);
      try reflexivity. discriminate.
  - apply (HB "g-b" [genai.Build_Model "m1"; genai.Build_Model "m2"]
             (Stub.gsay "hello") "hello");
      try reflexivity. discriminate.
Defined.

Lemma pil2base64_decodes_to_saved_bytes_witness :
  exists text,
    pil2base64 Stub.hello Stub.img Stub.both_state = (Return text, Stub.both_state) /\
    Base64.decode (encode_utf8 text) = Some (Stub.signature ++ Stub.img)%list /\
    decode_image Stub.open text = Stub.open (Stub.signature ++ Stub.img) /\
    read_back Stub.hello Stub.open Stub.img Stub.both_state
    = Stub.open (Stub.signature ++ Stub.img).
Proof.
  apply (pil2base64_decodes_to_saved_bytes Stub.hello Stub.open Stub.img
           Stub.both_state (Stub.signature ++ Stub.img)%list).
  reflexivity.
Defined.

Lemma openai_request_shape_witness :
  exists png,
    Image_save Stub.hello Stub.img "PNG" = inr png /\
    openai.model (openai_request "what is this?" "m1" None (Stub.signature ++ Stub.img))
    = "m1" /\
    openai.messages
      (openai_request "what is this?" "m1" None (Stub.signature ++ Stub.img))
    = [openai.Build_Message "user"
         [openai.text_part "what is this?";
          openai.image_url_part
            ("data:image/jpeg;base64," ++ decode_utf8 (Base64.b64encode png))]] /\
    openai.max_tokens
      (openai_request "what is this?" "m1" None (Stub.signature ++ Stub.img))
    = 300%Z.
Proof.
  apply (openai_request_shape Stub.hello Stub.img "what is this?" "m1" None
           Stub.both_state (openai.Build_OpenAI "sk-a")
           (openai_request "what is this?" "m1" None (Stub.signature ++ Stub.img))).
  vm_compute. right. left. reflexivity.
Defined.

Lemma openai_data_uri_declares_jpeg_for_png_witness :
  exists png url,
    Image_save Stub.hello Stub.img "PNG" = inr png /\
    openai.messages
      (openai_request "what is this?" "m1" (Some 64%Z) (Stub.signature ++ Stub.img))
    = [openai.Build_Message "user"
         [openai.text_part "what is this?"; openai.image_url_part url]] /\
    declared_mime url = Some "image/jpeg" /\
    after_comma url = Some (decode_utf8 (Base64.b64encode png)) /\
    declared_mime url <> Image_MIME "PNG".
Proof.
  apply (openai_data_uri_declares_jpeg_for_png Stub.hello Stub.img "what is this?"
           "m1" (Some 64%Z) Stub.both_state (openai.Build_OpenAI "sk-a")
           (openai_request "what is this?" "m1" (Some 64%Z)
              (Stub.signature ++ Stub.img))).
  vm_compute. right. left. reflexivity.
Defined.

(** ** The further properties at the stubbed vendors *)

Lemma unsupported_model_stops_before_generate_witness :
  fst (get_openai_output Stub.hello Stub.img "what is this?" "m3" None Stub.both_state)
  = Raise (Py.LookupError
      "Model 'm3' is not supported. Available models: ['m1', 'm2']")
  /\
  new_calls Stub.both_state
    (snd (get_gemini_output Stub.hello Stub.img "what is this?" "m3" Stub.both_state))
  = [list_models (Some (genai.Build_Config "g-b" "rest"))].
Proof.
  destruct (unsupported_model_stops_before_generate Stub.hello Stub.img
              "what is this?" "m3" Stub.both_state) as [HA HB].
  split.
  - apply (HA None "sk-a"
             (openai.Build_SyncPage [openai.Build_Model "m1"; openai.Build_Model "m2"]));
      try reflexivity. discriminate.
  - apply (HB "g-b" [genai.Build_Model "m1"; genai.Build_Model "m2"]);
      try reflexivity. discriminate.
Defined.

Lemma unsupported_model_error_determines_catalog_witness :
  not_supported "m3" ["m1"; "it's"] = not_supported "m3" ["m1"; "it's"] /\
  ["m1"; "it's"] = ["m1"; "it's"].
Proof.
  split; [reflexivity|].
  apply (unsupported_model_error_determines_catalog "m3"). reflexivity.
Defined.

Lemma catalog_fetch_failure_is_wrapped_witness :
  fst (get_openai_output Stub.offline Stub.img "what is this?" "m1" None Stub.both_state)
  = Raise (Py.RuntimeError "Failed to generate OpenAI output: Connection refused")
  /\
  fst (get_gemini_output Stub.offline Stub.img "what is this?" "m1" Stub.both_state)
  = Raise (Py.RuntimeError "Failed to generate Gemini output: Connection refused").
Proof.
  destruct (catalog_fetch_failure_is_wrapped Stub.offline Stub.img "what is this?"
              "m1" Stub.both_state Stub.connection_error eq_refl eq_refl) as [HA HB].
  split.
  - apply (HA None "sk-a"); try reflexivity. discriminate.
  - apply (HB "g-b"); try reflexivity. discriminate.
Defined.

Lemma generate_failure_is_wrapped_witness :
  fst (get_openai_output Stub.dropping Stub.img "what is this?" "m1" None Stub.both_state)
  = Raise (Py.RuntimeError "Failed to generate OpenAI output: Connection refused")
  /\
  fst (get_gemini_output Stub.dropping Stub.img "what is this?" "m1" Stub.both_state)
  = Raise (Py.RuntimeError "Failed to generate Gemini output: Connection refused").
Proof.
  destruct (generate_failure_is_wrapped Stub.dropping Stub.img "what is this?"
              "m1" Stub.both_state Stub.connection_error eq_refl eq_refl) as [HA HB].
  split.
  - apply (HA None "sk-a" (openai.Build_SyncPage [openai.Build_Model "m1"])
             (Stub.signature ++ Stub.img)%list);
      try reflexivity. discriminate.
  - apply (HB "g-b" [genai.Build_Model "m1"]); try reflexivity; [discriminate|].
    left. reflexivity.
Defined.

Lemma empty_credential_is_missing_witness :
  fst (get_openai_output Stub.hello Stub.img "what is this?" "m1" None
         Stub.empty_keys_state)
  = Raise (Py.EnvironmentError
      "OpenAI API key is missing. Set 'OPENAI_API_KEY' in environment variables.")
  /\
  snd (get_gemini_output Stub.hello Stub.img "what is this?" "m1" Stub.empty_keys_state)
  = Stub.empty_keys_state.
Proof.
  destruct (empty_credential_is_missing Stub.hello Stub.img "what is this?" "m1" None
              Stub.empty_keys_state) as [HA HB].
  split.
  - rewrite (HA eq_refl). reflexivity.
  - rewrite (HB eq_refl). reflexivity.
Defined.

Lemma encoder_failure_stops_openai_query_witness :
  fst (get_openai_output Stub.hello [] "what is this?" "m1" None Stub.both_state)
  = Raise (Py.RuntimeError
      ("Failed to generate OpenAI output: "
       ++ "Failed to convert image to base64: " ++ "cannot write empty image as PNG"))
  /\
  new_calls Stub.both_state
    (snd (get_openai_output Stub.hello [] "what is this?" "m1" None Stub.both_state))
  = [models_list (openai.Build_OpenAI "sk-a")].
Proof.
  apply (encoder_failure_stops_openai_query Stub.hello [] "what is this?" "m1" None
           Stub.both_state "sk-a"
           (openai.Build_SyncPage [openai.Build_Model "m1"; openai.Build_Model "m2"])
           (Py.ValueError "cannot write empty image as PNG"));
    try reflexivity. discriminate.
Defined.

Lemma openai_calls_use_own_client_witness :
  exists key,
    Py.get (environ Stub.both_state) "OPENAI_API_KEY" = Some key /\
    key <> EmptyString /\
    (models_list (Image := Stub.Bitmap) (openai.Build_OpenAI "sk-a")
     = models_list (openai.Build_OpenAI key) \/
     exists request,
       models_list (Image := Stub.Bitmap) (openai.Build_OpenAI "sk-a")
       = chat_completions_create (openai.Build_OpenAI key) request).
Proof.
  apply (openai_calls_use_own_client Stub.hello Stub.img "what is this?" "m1" None
           Stub.both_state (models_list (openai.Build_OpenAI "sk-a"))).
  vm_compute. left. reflexivity.
Defined.

Lemma gemini_calls_use_own_configuration_witness :
  exists key,
    Py.get (environ Stub.both_state) "GOOGLE_API_KEY" = Some key /\
    key <> EmptyString /\
    (generate_content (Some (genai.Build_Config "g-b" "rest"))
       (genai.Build_GenerativeModel "m1") "what is this?" Stub.img
     = list_models (Some (genai.Build_Config key "rest")) \/
     generate_content (Some (genai.Build_Config "g-b" "rest"))
       (genai.Build_GenerativeModel "m1") "what is this?" Stub.img
     = generate_content (Some (genai.Build_Config key "rest"))
         (genai.Build_GenerativeModel "m1") "what is this?" Stub.img).
Proof.
  apply (gemini_calls_use_own_configuration Stub.hello Stub.img "what is this?" "m1"
           Stub.both_state
           (generate_content (Some (genai.Build_Config "g-b" "rest"))
              (genai.Build_GenerativeModel "m1") "what is this?" Stub.img)).
  vm_compute. right. left. reflexivity.
Defined.

Lemma query_error_kinds_witness :
  (Stub.connection_error
   = Py.EnvironmentError
       "Google API key is missing. Set 'GOOGLE_API_KEY' in environment variables." /\
   Py.truthy (Py.get (environ Stub.both_state) "GOOGLE_API_KEY") = false) \/
  Py.isinstance (Py.RuntimeError "Failed to generate Gemini output: Connection refused")
    "LookupError" = true \/
  Py.isinstance (Py.RuntimeError "Failed to generate Gemini output: Connection refused")
    "RuntimeError" = true \/
  Py.isinstance (Py.RuntimeError "Failed to generate Gemini output: Connection refused")
    "Exception" = false.
Proof.
  destruct (proj2 (query_error_kinds Stub.offline Stub.img "what is this?" "m1" None
                     Stub.both_state
                     (Py.RuntimeError
                        "Failed to generate Gemini output: Connection refused"))
              eq_refl) as [[H _] | H].
  - discriminate H.
  - right. exact H.
Defined.

Lemma openai_url_payload_decodes_to_saved_bytes_witness :
  exists png url payload,
    Image_save Stub.hello Stub.img "PNG" = inr png /\
    openai.messages
      (openai_request "what is this?" "m1" None (Stub.signature ++ Stub.img))
    = [openai.Build_Message "user"
         [openai.text_part "what is this?"; openai.image_url_part url]] /\
    after_comma url = Some payload /\
    Base64.decode (encode_utf8 payload) = Some png.
Proof.
  apply (openai_url_payload_decodes_to_saved_bytes Stub.hello Stub.img
           "what is this?" "m1" None Stub.both_state (openai.Build_OpenAI "sk-a")
           (openai_request "what is this?" "m1" None (Stub.signature ++ Stub.img))).
  vm_compute. right. left. reflexivity.
Defined.

Lemma pil2base64_text_shape_witness :
  exists text,
    pil2base64 Stub.hello Stub.img Stub.both_state = (Return text, Stub.both_state) /\
    String.length text = 4 * ((List.length (Stub.signature ++ Stub.img) + 2) / 3) /\
    Forall (fun b => Base64.is_pad b = true \/ Base64.sextet_of_char b <> None)
           (encode_utf8 text).
Proof.
  apply (pil2base64_text_shape Stub.hello Stub.img Stub.both_state
           (Stub.signature ++ Stub.img)%list).
  reflexivity.
Defined.

Lemma returned_value_comes_from_validated_reply_witness :
  (exists key page png response choice rest,
     Py.get (environ Stub.both_state) "OPENAI_API_KEY" = Some key /\
     key <> EmptyString /\
     openai_models_list Stub.hello (calls Stub.both_state) (openai.Build_OpenAI key)
     = inr page /\
     Py.contains "m1" (map openai.id (openai.data page)) = true /\
     Image_save Stub.hello Stub.img "PNG" = inr png /\
     openai_chat_completions_create Stub.hello
       (calls Stub.both_state ++ [models_list (openai.Build_OpenAI key)])
       (openai.Build_OpenAI key) (openai_request "what is this?" "m1" None png)
     = inr response /\
     openai.choices response = choice :: rest /\
     Some "hello" = openai.message_content (openai.message choice))
  /\
  (exists key models response,
     Py.get (environ Stub.both_state) "GOOGLE_API_KEY" = Some key /\
     key <> EmptyString /\
     genai_list_models Stub.hello (calls Stub.both_state)
       (Some (genai.Build_Config key "rest")) = inr models /\
     Py.contains "m1" (map genai.name models) = true /\
     genai_generate_content Stub.hello
       (calls Stub.both_state ++ [list_models (Some (genai.Build_Config key "rest"))])
       (Some (genai.Build_Config key "rest"))
       (genai.Build_GenerativeModel "m1") "what is this?" Stub.img = inr response /\
     genai.text response = inr "hello").
Proof.
  destruct (returned_value_comes_from_validated_reply Stub.hello Stub.img
              "what is this?" "m1" Stub.both_state) as [HA HB].
  split.
  - apply (HA None (Some "hello")). reflexivity.
  - apply (HB "hello"). reflexivity.
Defined.

Lemma each_invocation_fetches_catalog_once_witness :
  List.length
    (filter is_list_call
       (new_calls
          (snd (get_openai_output Stub.hello_rotating Stub.img "what is this?" "m1"
                  None Stub.both_state))
          (snd (get_openai_output Stub.hello_rotating [] "and this?" "m2" (Some 64%Z)
                  (snd (get_openai_output Stub.hello_rotating Stub.img
                          "what is this?" "m1" None Stub.both_state))))))
  = 1
  /\
  List.length
    (filter is_list_call
       (new_calls Stub.both_state
          (snd (get_gemini_output Stub.hello_rotating Stub.img "what is this?" "m1"
                  Stub.both_state))))
  = 1.
Proof.
  destruct (each_invocation_fetches_catalog_once Stub.hello_rotating
              Stub.img "what is this?" "m1" None [] "and this?" "m2" (Some 64%Z)
              Stub.both_state) as [HA HB].
  split.
  - exact (proj2 (proj2 (HA eq_refl))).
  - exact (proj1 (proj2 (HB eq_refl))).
Defined.
